(** * QR code with centred logo: the safe-ratio policy, the logo layout,
    the validation retry loop and the vCard escaping of [qr_creator_v01.py]

  The development is a shallow embedding of the numeric and textual core of
  [src/qr_creator_v01.py].  Python [float]s are IEEE 754 binary64 values and
  are modelled as such, with the operations of [SpecFloat] at precision 53
  and maximal exponent 1024; Python [int]s are [Z]; Python text is a list of
  code points; exceptions are an explicit error type. *)

From Stdlib Require Import ZArith List Bool Ascii String Lia.
From Stdlib Require Import SpecFloat.
Import ListNotations.

Local Open Scope list_scope.
Local Open Scope Z_scope.

(** ** Exceptions *)

Inductive exn : Type :=
| ValueError
| AttributeError
| ZeroDivisionError
| OverflowError
| FileNotFoundError
| RuntimeError.

Definition result (A : Type) : Type := (exn + A)%type.

Definition raise {A : Type} (e : exn) : result A := inl e.
Definition ret {A : Type} (a : A) : result A := inr a.

Definition bind {A B : Type} (m : result A) (k : A -> result B) : result B :=
  match m with
  | inl e => inl e
  | inr a => k a
  end.

Notation "x <- m ;; k" := (bind m (fun x => k))
  (at level 61, m at next level, right associativity).
Notation "' p <- m ;; k" := (bind m (fun p => k))
  (at level 61, p pattern, m at next level, right associativity).

Definition of_option {A : Type} (e : exn) (o : option A) : result A :=
  match o with
  | Some a => inr a
  | None => inl e
  end.

(** ** Python floats *)

Module PyFloat.

Definition prec : Z := 53.
Definition emax : Z := 1024.

Definition float : Type := spec_float.

Definition inf : float := S754_infinity false.
Definition nan : float := S754_nan.

(** [float(n)] for an [int] that fits: nearest binary64, ties to even. *)
Definition of_int (n : Z) : float := binary_normalize prec emax n 0 false.

(** An integer as an unrounded dyadic value, for correctly rounded quotients
    of arbitrary integers. *)
Definition exact_int (n : Z) : float :=
  match n with
  | Z0 => S754_zero false
  | Zpos p => S754_finite false p 0
  | Zneg p => S754_finite true p 0
  end.

(** The literal with two decimals [n/100]: the binary64 nearest to it, which
    is what Python's parser produces (the quotient of two exactly
    representable integers is correctly rounded). *)
Definition dec2 (n : Z) : float := SFdiv prec emax (of_int n) (of_int 100).

Definition sub (a b : float) : float := SFsub prec emax a b.
Definition mul (a b : float) : float := SFmul prec emax a b.

(** The implicit conversion of an [int] operand; it raises when the integer
    is beyond the binary64 range. *)
Definition int_to_float (n : Z) : result float :=
  match of_int n with
  | S754_infinity _ => raise OverflowError
  | x => ret x
  end.

(** [a / b] on floats. *)
Definition truediv (a b : float) : result float :=
  match b with
  | S754_zero _ => raise ZeroDivisionError
  | _ => ret (SFdiv prec emax a b)
  end.

(** [a / b] on two [int]s: the correctly rounded quotient. *)
Definition int_truediv (a b : Z) : result float :=
  if b =? 0 then raise ZeroDivisionError
  else
    match SFdiv prec emax (exact_int a) (exact_int b) with
    | S754_infinity _ => raise OverflowError
    | q => ret q
    end.

(** [a < b], [a <= b]; Python's [a > b] is [ltb b a], [a >= b] is [leb b a].
    Every comparison with a NaN is false. *)
Definition ltb (a b : float) : bool := SFltb a b.
Definition leb (a b : float) : bool := SFleb a b.

Definition is_nan (a : float) : bool :=
  match a with S754_nan => true | _ => false end.

(** The builtins [max(a, b)] and [min(a, b)]: the first argument is kept
    unless the second is strictly greater (resp. smaller). *)
Definition py_max (a b : float) : float := if ltb a b then b else a.
Definition py_min (a b : float) : float := if ltb b a then b else a.

(** Round a non-negative quotient [num / den] to the nearest integer, ties
    to even. *)
Definition round_half_even (num den : Z) : Z :=
  let q := num / den in
  let r := num mod den in
  match Z.compare (2 * r) den with
  | Lt => q
  | Gt => q + 1
  | Eq => if Z.even q then q else q + 1
  end.

Definition signed (s : bool) (n : Z) : Z := if s then - n else n.

(** [int(x)]: truncation toward zero; a NaN raises [ValueError], an infinity
    [OverflowError]. *)
Definition py_int (x : float) : result Z :=
  match x with
  | S754_zero _ => ret 0
  | S754_finite s m e =>
      ret (signed s (if 0 <=? e then Z.pos m * 2 ^ e
                     else Z.pos m / 2 ^ (- e)))
  | S754_nan => raise ValueError
  | S754_infinity _ => raise OverflowError
  end.

(** [round(x)] with one argument: the nearest [int], ties to even; NaN and
    the infinities raise as for [int]. *)
Definition py_round (x : float) : result Z :=
  match x with
  | S754_zero _ => ret 0
  | S754_finite s m e =>
      ret (signed s (if 0 <=? e then Z.pos m * 2 ^ e
                     else round_half_even (Z.pos m) (2 ^ (- e))))
  | S754_nan => raise ValueError
  | S754_infinity _ => raise OverflowError
  end.

(** [round(x, 2)]: the exact binary value is rounded to two decimals (ties
    to even) and the decimal result is converted back to the nearest
    binary64.  NaN, the infinities, zeros and integral values are returned
    unchanged. *)
Definition py_round2 (x : float) : float :=
  match x with
  | S754_finite s m e =>
      if 0 <=? e then x
      else
        match round_half_even (Z.pos m * 100) (2 ^ (- e)) with
        | Zpos n => SFdiv prec emax (S754_finite s n 0) (S754_finite false 100 0)
        | _ => S754_zero s
        end
  | _ => x
  end.

End PyFloat.

(** ** Python text *)

Module PyStr.

(** Text is the list of its Unicode code points. *)
Definition str : Type := list N.

(** A literal of the source; all of them are ASCII. *)
Definition lit (s : string) : str := map N_of_ascii (list_ascii_of_string s).

Definition LF : N := 10%N.
Definition CR : N := 13%N.
Definition BACKSLASH : N := 92%N.
Definition SEMICOLON : N := 59%N.
Definition COMMA : N := 44%N.
Definition LETTER_n : N := 110%N.

(** The characters removed by [str.strip()], those for which [str.isspace()]
    holds: TAB to CR, FS to US and the space, U+0085, U+00A0, U+1680,
    U+2000 to U+200A, U+2028, U+2029, U+202F, U+205F and U+3000. *)
Definition is_space (c : N) : bool :=
  ((9 <=? c) && (c <=? 13) || (28 <=? c) && (c <=? 32)
   || (c =? 0x85) || (c =? 0xA0) || (c =? 0x1680)
   || (0x2000 <=? c) && (c <=? 0x200A)
   || (c =? 0x2028) || (c =? 0x2029) || (c =? 0x202F) || (c =? 0x205F)
   || (c =? 0x3000))%N.

Fixpoint lstrip (s : str) : str :=
  match s with
  | c :: t => if is_space c then lstrip t else s
  | [] => []
  end.

Definition rstrip (s : str) : str := rev (lstrip (rev s)).

Definition strip (s : str) : str := rstrip (lstrip s).

(** The upper case of an ASCII character. *)
Definition ascii_upper (c : N) : N :=
  if ((97 <=? c) && (c <=? 122))%N then (c - 32)%N else c.

(** [str.upper()] maps each character on its own.  Outside ASCII it follows
    the full case mapping of the Unicode database, in which a character can
    become several (U+00DF becomes SS) and some become ASCII letters (U+0131
    becomes I); that table, [unicode_upper], is a parameter. *)
Definition upper_char (unicode_upper : N -> list N) (c : N) : str :=
  if (c <? 128)%N then [ascii_upper c] else unicode_upper c.

Definition upper (unicode_upper : N -> list N) (s : str) : str :=
  flat_map (upper_char unicode_upper) s.

(** A table that changes nothing, for examples on ASCII text, where the
    table is not consulted. *)
Definition no_case_table : N -> list N := fun c => [c].

Fixpoint startswith (s prefix : str) {struct prefix} : bool :=
  match prefix, s with
  | [], _ => true
  | p :: prefix', c :: s' => N.eqb c p && startswith s' prefix'
  | _ :: _, [] => false
  end.

(** Prefix test up to the case of ASCII letters. *)
Fixpoint startswith_nocase (s prefix : str) {struct prefix} : bool :=
  match prefix, s with
  | [], _ => true
  | p :: prefix', c :: s' =>
      N.eqb (ascii_upper c) (ascii_upper p) && startswith_nocase s' prefix'
  | _ :: _, [] => false
  end.

(** [s.replace(old, new)] for a non-empty [old]: the occurrences of [old] are
    replaced from left to right without overlap.  [skip] counts the
    characters of a matched occurrence that are still to be dropped. *)
Fixpoint replace_from (skip : nat) (old new s : str) : str :=
  match s with
  | [] => []
  | c :: t =>
      match skip with
      | S k => replace_from k old new t
      | O =>
          if startswith s old
          then new ++ replace_from (List.length old - 1) old new t
          else c :: replace_from O old new t
      end
  end.

Definition replace (s old new : str) : str := replace_from O old new s.

(** The effect of replacing a one-character [old] on a single character. *)
Definition subst_char (old : N) (new : str) (c : N) : str :=
  if N.eqb c old then new else [c].

End PyStr.

(** ** The program: [qr_creator_v01.py] *)

Module QrCreator.

Import PyFloat PyStr.

(** [qrcode.constants] *)
Definition ERROR_CORRECT_L : Z := 1.
Definition ERROR_CORRECT_M : Z := 0.
Definition ERROR_CORRECT_Q : Z := 3.
Definition ERROR_CORRECT_H : Z := 2.

(** [d.get(k, default)] on a dict written as a literal. *)
Fixpoint dict_get (d : list (Z * float)) (k : Z) (default : float) : float :=
  match d with
  | [] => default
  | (k', v) :: d' => if k' =? k then v else dict_get d' k default
  end.

(** [max(a, b)] on [int]s. *)
Definition py_max_int (a b : Z) : Z := if a <? b then b else a.
Definition py_min_int (a b : Z) : Z := if b <? a then b else a.

(** *** [_escape_vcard] *)

Definition _escape_vcard (s : option str) : str :=
  match s with
  | None => []
  | Some [] => []
  | Some s =>
      replace
        (replace
           (replace
              (replace
                 (replace s [BACKSLASH] [BACKSLASH; BACKSLASH])
                 [CR; LF] [BACKSLASH; LETTER_n])
              [LF] [BACKSLASH; LETTER_n])
           [SEMICOLON] [BACKSLASH; SEMICOLON])
        [COMMA] [BACKSLASH; COMMA]
  end.

(** *** [_normalize_color] *)

Inductive color_like : Type :=
| ColorStr (s : str)
| ColorTuple (t : list Z).

Section Color.

(** Pillow's colour-string parser (names, hex, functional notations) on a
    [str] argument; [None] is its [ValueError]. *)
Variable getrgb_str : str -> option (list Z).

(** [ImageColor.getrgb(color)]: it starts with [color = color.lower()], a
    [str] method, so a tuple argument raises [AttributeError]. *)
Definition getrgb (c : color_like) : result (list Z) :=
  match c with
  | ColorStr s => of_option ValueError (getrgb_str s)
  | ColorTuple _ => raise AttributeError
  end.

Definition _normalize_color (c : color_like) : result (list Z) :=
  match getrgb c with
  | inr rgb => ret (if (3 <? List.length rgb)%nat then firstn 3 rgb else rgb)
  | inl _ => raise ValueError
  end.

End Color.

(** *** [_max_safe_logo_ratio] *)

Definition _max_safe_logo_ratio (ec_level modules_count : Z) : float :=
  let base :=
    dict_get [(ERROR_CORRECT_L, dec2 12); (ERROR_CORRECT_M, dec2 15);
              (ERROR_CORRECT_Q, dec2 18); (ERROR_CORRECT_H, dec2 22)]
             ec_level (dec2 18) in
  let penalty :=
    if 45 <=? modules_count then dec2 3
    else if 33 <=? modules_count then dec2 2
    else S754_zero false in
  py_max (dec2 8) (sub base penalty).

(** *** [create_qr_with_logo]

    The function is modelled up to the normalisation of the outline colour
    at line 248: a returned layout holds the values computed when that line
    has been passed without an exception.  The drawing of the plate (for its
    geometry see [Plate]), the pasting and the saving are left out.  The QR encoder is a
    collaborator: the side of the symbol in modules ([qr.modules_count]) and
    the pixel size of the rendered image are inputs.  So are the facts about
    the logo file: whether the path exists and, when Pillow can load it, the
    pixel size of the image. *)

(** Lines 183-194: the pre-clamp for contact payloads; it yields the ratio
    and the quiet-zone border handed to the encoder. *)
Definition contact_preclamp (unicode_upper : N -> list N) (data : str)
    (logo_size_ratio : float) (border_size : Z) : float * Z :=
  let dat_upper := upper unicode_upper (strip data) in
  if startswith dat_upper (lit "BEGIN:VCARD") then
    ((if ltb (dec2 16) logo_size_ratio then dec2 16 else logo_size_ratio),
     py_max_int border_size 4)
  else if startswith dat_upper (lit "MECARD:") then
    ((if ltb (dec2 18) logo_size_ratio then dec2 18 else logo_size_ratio),
     py_max_int border_size 4)
  else (logo_size_ratio, border_size).

(** Lines 206-209: the cap the requested ratio is clamped against. *)
Definition safe_cap (error_correction modules_count : Z) : float :=
  py_min (_max_safe_logo_ratio error_correction modules_count) (dec2 20).

(** Line 212. *)
Definition clamp_ratio (logo_size_ratio cap : float) : float :=
  py_max (dec2 8) (py_min logo_size_ratio cap).

(** The value of [logo_size_ratio] after line 212 and the border given to
    the encoder at line 201, as functions of the arguments and of the module
    count reported by the encoder. *)
Definition applied_logo_ratio (unicode_upper : N -> list N) (data : str)
    (logo_size_ratio : float) (border_size error_correction modules_count : Z)
  : float :=
  clamp_ratio
    (fst (contact_preclamp unicode_upper data logo_size_ratio border_size))
    (safe_cap error_correction modules_count).

Definition encoder_border (unicode_upper : N -> list N) (data : str)
    (logo_size_ratio : float) (border_size : Z) : Z :=
  snd (contact_preclamp unicode_upper data logo_size_ratio border_size).

(** Lines 224-233: the size the logo is to be resized to, as
    (max_side, new_w, new_h). *)
Definition resize_logo (qr_w qr_h : Z) (logo_size_ratio : float) (lw lh : Z)
  : result (Z * Z * Z) :=
  side <- int_to_float (py_min_int qr_w qr_h) ;;
  max_side <- py_int (mul side logo_size_ratio) ;;
  aspect <- int_truediv lw lh ;;
  fmax_side <- int_to_float max_side ;;
  if leb (of_int 1) aspect then
    q <- truediv fmax_side aspect ;;
    new_h <- py_round q ;;
    ret (max_side, max_side, new_h)
  else
    new_w <- py_round (mul fmax_side aspect) ;;
    ret (max_side, new_w, max_side).

(** Line 234, [logo.resize((new_w, new_h), ...)] on an image of size
    [lw] x [lh]: a size equal to the image's own gives a copy of it; any
    other size with a side below 1 is refused by Pillow ("height and width
    must be > 0"). *)
Definition pil_resize (lw lh new_w new_h : Z) : result (Z * Z) :=
  if (lw =? new_w) && (lh =? new_h) then ret (new_w, new_h)
  else if (new_w <? 1) || (new_h <? 1) then raise ValueError
  else ret (new_w, new_h).

Record layout : Type := {
  border : Z;
  cap : float;
  applied_ratio : float;
  max_side : Z;
  new_w : Z;
  new_h : Z
}.

(** [logo_exists] is [logo_path.exists()]; [logo] is the size of the image
    that [Image.open(logo_path).convert("RGBA")] yields, [None] when it
    raises. *)
Definition create_qr_with_logo (getrgb_str : str -> option (list Z))
    (unicode_upper : N -> list N) (data : str) (logo_exists : bool)
    (logo : option (Z * Z)) (fill_color back_color : color_like)
    (logo_size_ratio : float) (border_size error_correction : Z)
    (logo_bg_outline : option color_like) (modules_count qr_w qr_h : Z)
  : result layout :=
  match data with
  | [] => raise ValueError
  | _ =>
      if negb logo_exists then raise FileNotFoundError
      else
        fill_rgb <- _normalize_color getrgb_str fill_color ;;
        back_rgb <- _normalize_color getrgb_str back_color ;;
        let '(ratio, border_used) :=
          contact_preclamp unicode_upper data logo_size_ratio border_size in
        let c := safe_cap error_correction modules_count in
        let ratio := clamp_ratio ratio c in
        '(lw, lh) <- of_option RuntimeError logo ;;
        '(ms, w, h) <- resize_logo qr_w qr_h ratio lw lh ;;
        '(w, h) <- pil_resize lw lh w h ;;
        white <- _normalize_color getrgb_str (ColorStr (lit "white")) ;;
        outline_rgb <-
          match logo_bg_outline with
          | Some c => rgb <- _normalize_color getrgb_str c ;; ret (Some rgb)
          | None => ret None
          end ;;
        ret {| border := border_used; cap := c; applied_ratio := ratio;
               max_side := ms; new_w := w; new_h := h |}
  end.

(** Line 530, one [Retry]: the ratio of the next attempt. *)
Definition retry_ratio (ratio : float) : float :=
  py_max (dec2 12) (py_round2 (sub ratio (dec2 2))).

(** *** The validation loop of [main]

    [can_decode k] is the answer of [_can_decode] on the image of attempt
    [k]; each call of [create_qr_with_logo] is taken to return.  The result
    is the list of the ratios attempted, in order, and the final [ok];
    [None] means that [fuel] iterations did not reach a [break]. *)
Fixpoint main_loop (fuel : nat) (validate auto_tune : bool)
    (can_decode : nat -> bool) (attempt : nat) (ratio : float)
  : option (list float * bool) :=
  match fuel with
  | O => None
  | S fuel' =>
      if validate then
        let ok := can_decode attempt in
        if ok || negb auto_tune || leb ratio (dec2 12) then Some ([ratio], ok)
        else
          match main_loop fuel' validate auto_tune can_decode (S attempt)
                  (retry_ratio ratio) with
          | Some (rs, ok') => Some (ratio :: rs, ok')
          | None => None
          end
      else Some ([ratio], true)
  end.

End QrCreator.

(** ** The policy as the specification words it *)

Module Policy.

Import PyFloat PyStr.

Inductive ec_level : Type := L | M | Q | H.

Definition ec_const (l : ec_level) : Z :=
  match l with
  | L => QrCreator.ERROR_CORRECT_L
  | M => QrCreator.ERROR_CORRECT_M
  | Q => QrCreator.ERROR_CORRECT_Q
  | H => QrCreator.ERROR_CORRECT_H
  end.

(** The order L < M < Q < H of increasing redundancy. *)
Definition ec_rank (l : ec_level) : nat :=
  match l with L => 0 | M => 1 | Q => 2 | H => 3 end.

Definition base_cap (l : ec_level) : float :=
  match l with
  | L => dec2 12
  | M => dec2 15
  | Q => dec2 18
  | H => dec2 22
  end.

Definition density_penalty (module_count : Z) : float :=
  if 45 <=? module_count then dec2 3
  else if (33 <=? module_count) && (module_count <? 45) then dec2 2
  else of_int 0.

Definition clamp (x lo hi : float) : float := py_max lo (py_min x hi).

(** Modelled from the spec: the unescaping that the round-trip property
    refers to; the repository has no such routine.  It reads a backslash
    together with the character after it: backslash-n is a newline, any
    other escaped character stands for itself. *)
Fixpoint unescape_vcard (s : str) : str :=
  match s with
  | [] => []
  | c :: t =>
      if N.eqb c BACKSLASH then
        match t with
        | [] => [c]
        | d :: r => (if N.eqb d LETTER_n then LF else d) :: unescape_vcard r
        end
      else c :: unescape_vcard t
  end.

(** The escaping of one character: backslash, line feed, semicolon and comma
    get a backslash escape, every other character is kept. *)
Definition escape_char (c : N) : str :=
  if N.eqb c BACKSLASH then [BACKSLASH; BACKSLASH]
  else if N.eqb c LF then [BACKSLASH; LETTER_n]
  else if N.eqb c SEMICOLON then [BACKSLASH; SEMICOLON]
  else if N.eqb c COMMA then [BACKSLASH; COMMA]
  else [c].

(** No carriage return is immediately followed by a line feed. *)
Fixpoint no_crlf (s : str) : bool :=
  match s with
  | [] => true
  | c :: t =>
      negb (N.eqb c CR && match t with d :: _ => N.eqb d LF | [] => false end)
      && no_crlf t
  end.

End Policy.

(** ** The rest of [qr_creator_v01.py] *)

(** *** The plate behind the logo: lines 236-250 and [_rounded_rect] *)

Module Plate.

Import QrCreator.

Record box : Type := {
  cx : Z; cy : Z;
  bg_x0 : Z; bg_y0 : Z; bg_x1 : Z; bg_y1 : Z
}.

(** Lines 237-242: the top-left corner of the centred logo and the plate
    around it, clipped to the image.  [//] is the floor division. *)
Definition logo_box (qr_w qr_h new_w new_h logo_pad_px : Z) : box :=
  let cx := (qr_w - new_w) / 2 in
  let cy := (qr_h - new_h) / 2 in
  {| cx := cx; cy := cy;
     bg_x0 := py_max_int 0 (cx - py_max_int 0 logo_pad_px);
     bg_y0 := py_max_int 0 (cy - py_max_int 0 logo_pad_px);
     bg_x1 := py_min_int qr_w (cx + new_w + py_max_int 0 logo_pad_px);
     bg_y1 := py_min_int qr_h (cy + new_h + py_max_int 0 logo_pad_px) |}.

(** Line 247: the alpha of the plate fill. *)
Definition fill_alpha (logo_bg_opacity : Z) : Z :=
  py_max_int 0 (py_min_int 255 logo_bg_opacity).

(** [_rounded_rect]: the corner radius handed to [rounded_rectangle]. *)
Definition _rounded_rect (x0 y0 x1 y1 radius : Z) : Z :=
  let w := x1 - x0 in
  let h := y1 - y0 in
  py_max_int 0 (py_min_int radius (py_min_int w h / 2)).

End Plate.

(** *** [build_vcard] *)

Module VCard.

Import PyStr QrCreator.

Definition VCARD_EOL : str := [CR; LF].

(** The truth value of a text: it is not empty. *)
Definition truthy (s : str) : bool :=
  match s with
  | [] => false
  | _ :: _ => true
  end.

(** [sep.join(lines)] *)
Fixpoint join (sep : str) (lines : list str) : str :=
  match lines with
  | [] => []
  | [l] => l
  | l :: rest => l ++ sep ++ join sep rest
  end.

(** The [TEL] and [EMAIL] loops: a blank entry gives no line. *)
Definition entry_lines (tag : str) (entries : list str) : list str :=
  flat_map (fun p => let p := strip p in
                     if truthy p then [tag ++ p] else []) entries.

Definition optional_line (tag value : str) : list str :=
  if truthy value then [tag ++ value] else [].

Definition build_vcard (given_name family_name org title : str)
    (phones emails : option (list str))
    (url street city region postal country note version : str) : str :=
  let phones := match phones with Some l => l | None => [] end in
  let emails := match emails with Some l => l | None => [] end in
  let gn := _escape_vcard (Some given_name) in
  let fn := _escape_vcard (Some family_name) in
  let org_e := _escape_vcard (Some org) in
  let title_e := _escape_vcard (Some title) in
  let street_e := _escape_vcard (Some street) in
  let city_e := _escape_vcard (Some city) in
  let region_e := _escape_vcard (Some region) in
  let postal_e := _escape_vcard (Some postal) in
  let country_e := _escape_vcard (Some country) in
  let url_e := _escape_vcard (Some url) in
  let note_e := _escape_vcard (Some note) in
  let lines :=
    [lit "BEGIN:VCARD";
     lit "VERSION:" ++ version;
     lit "N:" ++ fn ++ lit ";" ++ gn ++ lit ";;;";
     strip (lit "FN:" ++ gn ++ lit " " ++ fn)]
    ++ optional_line (lit "ORG:") org_e
    ++ optional_line (lit "TITLE:") title_e
    ++ entry_lines (lit "TEL;TYPE=CELL,VOICE:") phones
    ++ entry_lines (lit "EMAIL;TYPE=INTERNET:") emails
    ++ (if existsb truthy [street_e; city_e; region_e; postal_e; country_e]
        then [lit "ADR;TYPE=WORK:"
              ++ (lit ";;" ++ street_e ++ lit ";" ++ city_e ++ lit ";"
                  ++ region_e ++ lit ";" ++ postal_e ++ lit ";" ++ country_e)]
        else [])
    ++ optional_line (lit "URL:") url_e
    ++ optional_line (lit "NOTE:") note_e
    ++ [lit "END:VCARD"] in
  join VCARD_EOL lines ++ VCARD_EOL.

End VCard.

(** *** [_can_decode] *)

Module Validation.

Import PyStr.

(** [pyzbar_ok] is the flag [_PYZBAR_OK]; [zbar] is the outcome of
    [_zbar_decode(img)]: [None] when it raises, otherwise the [data] of the
    decoded records, in order. *)
Definition _can_decode (pyzbar_ok : bool) (zbar : option (list str)) : bool :=
  if negb pyzbar_ok then true
  else
    match zbar with
    | None => false
    | Some [] => false
    | Some (data :: _) => VCard.truthy data
    end.

End Validation.

(** *** The numeric prompts of [interactive_wizard] *)

Module Wizard.

Import PyFloat PyStr QrCreator.

Section Prompts.

(** [float(raw)] and [int(raw)] on the typed text; [None] is their
    [ValueError]. *)
Variable float_of_str : str -> option float.
Variable int_of_str : str -> option Z.

Definition _ask_float (typed : str) (default lo hi : float) : float :=
  let raw := strip typed in
  if negb (VCard.truthy raw) then default
  else
    match float_of_str raw with
    | None => default
    | Some val => py_max lo (py_min hi val)
    end.

Definition _ask_int (typed : str) (default lo hi : Z) : Z :=
  let raw := strip typed in
  if negb (VCard.truthy raw) then default
  else
    match int_of_str raw with
    | None => default
    | Some val => py_max_int lo (py_min_int hi val)
    end.

(** Lines 390-407: the six numeric settings. *)
Definition ask_ratio (typed : str) : float :=
  _ask_float typed (dec2 18) (dec2 8) (dec2 30).
Definition ask_box (typed : str) : Z := _ask_int typed 12 4 32.
Definition ask_border (typed : str) : Z := _ask_int typed 4 1 16.
Definition ask_pad (typed : str) : Z := _ask_int typed 8 0 128.
Definition ask_bg_opacity (typed : str) : Z := _ask_int typed 255 0 255.
Definition ask_bg_radius (typed : str) : Z := _ask_int typed 12 0 128.

End Prompts.

Fixpoint str_eqb (a b : str) : bool :=
  match a, b with
  | [], [] => true
  | x :: a', y :: b' => N.eqb x y && str_eqb a' b'
  | _, _ => false
  end.

(** Lines 409-412: the error-correction answer. *)
Definition ask_ec (unicode_upper : N -> list N) (typed : str) : str :=
  let ec := upper unicode_upper (strip typed) in
  let ec := if VCard.truthy ec then ec else lit "H" in
  if existsb (str_eqb ec) [lit "L"; lit "M"; lit "Q"; lit "H"] then ec
  else lit "H".

(** Line 457: [ec_map], a dict without default: a missing key raises. *)
Definition ec_map (ec : str) : option Z :=
  if str_eqb ec (lit "L") then Some ERROR_CORRECT_L
  else if str_eqb ec (lit "M") then Some ERROR_CORRECT_M
  else if str_eqb ec (lit "Q") then Some ERROR_CORRECT_Q
  else if str_eqb ec (lit "H") then Some ERROR_CORRECT_H
  else None.

End Wizard.

(** *** The payload of [main]: lines 468-502 *)

Module MainPayload.

Import PyStr QrCreator.

(** [args.phone] and [args.email]: absent, one text (command line) or a list
    (wizard). *)
Inductive text_or_list : Type :=
| Absent
| OneText (s : str)
| TextList (l : list str).

Record args : Type := {
  from_file : option str;
  vcard : bool;
  data : option str;
  first_name : option str;
  last_name : option str;
  org : option str;
  title : option str;
  phone : text_or_list;
  email : text_or_list;
  url : option str;
  street : option str;
  city : option str;
  region : option str;
  postal : option str;
  country : option str;
  note : option str
}.

(** What a path leads to: nothing, a name the system refuses (so that
    [exists()] itself raises [OSError], as for a name that is too long),
    something [read_text] fails on, or a readable file with its text. *)
Inductive fs_entry : Type :=
| Missing
| Refused
| Unreadable
| File (content : str).

Inductive payload_error : Type :=
| FileNotFound
| PathError
| ReadError.

(** [x or ""] *)
Definition or_empty (o : option str) : str :=
  match o with
  | Some s => s
  | None => []
  end.

(** The truth value of an optional text: present and not empty. *)
Definition given (o : option str) : bool :=
  match o with
  | Some s => VCard.truthy s
  | None => false
  end.

(** [[x] if isinstance(x, str) else (x or [])] *)
Definition as_list (x : text_or_list) : list str :=
  match x with
  | Absent => []
  | OneText s => [s]
  | TextList l => l
  end.

Definition is_vcard_text (unicode_upper : N -> list N) (o : option str)
  : bool :=
  match o with
  | Some s =>
      VCard.truthy s
      && startswith (upper unicode_upper (strip s)) (lit "BEGIN:VCARD")
  | None => false
  end.

Section Files.

Variable fs : str -> fs_entry.
Variable unicode_upper : N -> list N.

(** [Path(path).exists()] *)
Definition exists_path (path : str) : payload_error + bool :=
  match fs path with
  | Missing => inr false
  | Refused => inl PathError
  | _ => inr true
  end.

(** [Path(path).read_text(encoding="utf-8")] on a path that exists. *)
Definition read_text (path : str) : payload_error + option str :=
  match fs path with
  | File content => inr (Some content)
  | Missing => inl FileNotFound
  | Refused => inl PathError
  | Unreadable => inl ReadError
  end.

(** The value of [payload] after line 502; [None] is Python's [None]. *)
Definition payload (a : args) : payload_error + option str :=
  if given (from_file a) then
    match exists_path (or_empty (from_file a)) with
    | inl e => inl e
    | inr false => inl FileNotFound
    | inr true => read_text (or_empty (from_file a))
    end
  else if vcard a then
    if is_vcard_text unicode_upper (data a) then inr (data a)
    else
      inr (Some (VCard.build_vcard
                   (or_empty (first_name a)) (or_empty (last_name a))
                   (or_empty (org a)) (or_empty (title a))
                   (Some (as_list (phone a))) (Some (as_list (email a)))
                   (or_empty (url a)) (or_empty (street a))
                   (or_empty (city a)) (or_empty (region a))
                   (or_empty (postal a)) (or_empty (country a))
                   (or_empty (note a)) (lit "3.0")))
  else
    if given (data a) then
      match exists_path (or_empty (data a)) with
      | inl e => inl e
      | inr true => read_text (or_empty (data a))
      | inr false => inr (data a)
      end
    else inr (data a).

End Files.

End MainPayload.

(** ** The earlier script: [qr_link.py] *)

Module QrLink.

Import PyFloat PyStr QrCreator.

(** Lines 123-128 of [create_qr_with_logo]: level H is fixed. *)
Definition safe_cap (modules_count : Z) : float :=
  let safe_cap := dec2 22 in
  if 45 <=? modules_count then sub safe_cap (dec2 3)
  else if 33 <=? modules_count then sub safe_cap (dec2 2)
  else safe_cap.

(** Lines 129-132: the ratio the logo is sized with. *)
Definition logo_ratio (logo_size_ratio : float) (modules_count : Z) : float :=
  let cap := safe_cap modules_count in
  let r := if ltb cap logo_size_ratio then cap else logo_size_ratio in
  py_max (dec2 12) r.

Section Prompt.

(** [float(text)]; [None] is its [ValueError]. *)
Variable float_of_str : str -> option float.

(** Lines 233-239 of [main]: the ratio typed at the prompt. *)
Definition main_ratio (typed : str) : float :=
  let raw := strip typed in
  match (if VCard.truthy raw then float_of_str raw else Some (dec2 30)) with
  | Some r => py_max (dec2 10) (py_min (dec2 40) r)
  | None => dec2 30
  end.

End Prompt.

End QrLink.

(** ** Order facts on binary64 values *)

Section FloatOrder.

Import PyFloat.

Lemma SFcompare_antisym (x y : float) :
  SFcompare y x = option_map CompOpp (SFcompare x y).
Proof.
  destruct x as [sx|sx| |sx mx ex], y as [sy|sy| |sy my ey]; simpl;
    try reflexivity;
    try (destruct sx; reflexivity); try (destruct sy; reflexivity);
    try (destruct sx, sy; reflexivity).
  f_equal.
  rewrite (Z.compare_antisym ex ey).
  change (Pos.compare_cont Eq my mx) with (Pos.compare my mx).
  change (Pos.compare_cont Eq mx my) with (Pos.compare mx my).
  rewrite (Pos.compare_antisym mx my).
  destruct sx, sy; simpl; try reflexivity;
    destruct (ex ?= ey); simpl; try reflexivity;
    destruct (mx ?= my)%positive; reflexivity.
Qed.

Lemma ltb_leb (a b : float) : ltb a b = true -> leb a b = true.
Proof.
  unfold ltb, leb, SFltb, SFleb.
  destruct (SFcompare a b) as [[ | | ]|]; congruence.
Qed.

Lemma ltb_not_nan (a b : float) :
  ltb a b = true -> is_nan a = false /\ is_nan b = false.
Proof.
  unfold ltb, SFltb.
  destruct a, b; simpl; try discriminate; auto.
Qed.

Lemma leb_not_nan (a b : float) :
  leb a b = true -> is_nan a = false /\ is_nan b = false.
Proof.
  unfold leb, SFleb.
  destruct a, b; simpl; try discriminate; auto.
Qed.

Lemma SFcompare_total (a b : float) :
  is_nan a = false -> is_nan b = false -> exists c, SFcompare a b = Some c.
Proof.
  destruct a, b; simpl; try discriminate; eauto.
Qed.

Lemma not_ltb_leb (a b : float) :
  is_nan a = false -> is_nan b = false -> ltb a b = false -> leb b a = true.
Proof.
  intros Ha Hb.
  destruct (SFcompare_total a b Ha Hb) as [c Hc].
  unfold ltb, leb, SFltb, SFleb.
  rewrite (SFcompare_antisym a b), Hc.
  destruct c; simpl; congruence.
Qed.

Lemma SFcompare_trans (a b c : float) (c1 c2 : comparison) :
  SFcompare a b = Some c1 -> c1 <> Gt ->
  SFcompare b c = Some c2 -> c2 <> Gt ->
  exists c3, SFcompare a c = Some c3 /\ c3 <> Gt /\
             (c1 = Lt \/ c2 = Lt -> c3 = Lt).
Proof.
  intros H1 N1 H2 N2.
  destruct a as [sa|sa| |sa ma ea], b as [sb|sb| |sb mb eb],
           c as [sc|sc| |sc mc ec]; simpl in *; try discriminate;
    repeat match goal with s : bool |- _ => destruct s end; simpl in *;
    injection H1 as <-; injection H2 as <-;
    try (eexists; split; [reflexivity|]; split; [congruence|intros [?|?]; congruence]);
    try congruence.
  all: eexists; split; [reflexivity|].
  all: change (Pos.compare_cont Eq) with Pos.compare in *.
  all: destruct (Z.compare_spec ea eb), (Z.compare_spec eb ec), (Z.compare_spec ea ec);
       try lia; subst; simpl in *; try congruence;
       try (split; [congruence|intros [?|?]; congruence]).
  all: destruct (Pos.compare_spec ma mb), (Pos.compare_spec mb mc), (Pos.compare_spec ma mc);
       try lia; subst; simpl in *; try congruence;
       try (split; [congruence|intros [?|?]; congruence]).
Qed.

Lemma leb_trans (a b c : float) :
  leb a b = true -> leb b c = true -> leb a c = true.
Proof.
  unfold leb, SFleb. intros H1 H2.
  destruct (SFcompare a b) as [c1|] eqn:E1; [|discriminate].
  destruct (SFcompare b c) as [c2|] eqn:E2; [|discriminate].
  destruct (SFcompare_trans a b c c1 c2 E1) as (c3 & -> & N3 & _); auto;
    try (destruct c1; congruence); try (destruct c2; congruence).
  destruct c3; congruence.
Qed.

Lemma ltb_leb_trans (a b c : float) :
  ltb a b = true -> leb b c = true -> ltb a c = true.
Proof.
  unfold ltb, leb, SFltb, SFleb. intros H1 H2.
  destruct (SFcompare a b) as [c1|] eqn:E1; [|discriminate].
  destruct (SFcompare b c) as [c2|] eqn:E2; [|discriminate].
  destruct (SFcompare_trans a b c c1 c2 E1) as (c3 & -> & N3 & HL); auto;
    try (destruct c1; congruence); try (destruct c2; congruence).
  rewrite HL; [reflexivity|]. left. destruct c1; congruence.
Qed.

Lemma leb_refl (a : float) : is_nan a = false -> leb a a = true.
Proof.
  intros Ha. unfold leb, SFleb.
  destruct (SFcompare_total a a Ha Ha) as [c Hc].
  pose proof (SFcompare_antisym a a) as Hs. rewrite Hc in Hs. simpl in Hs.
  rewrite Hc. destruct c; simpl in Hs; congruence.
Qed.

(** [max(lo, min(x, hi))] stays between [lo] and [hi] when [lo <= hi], for
    every [x], a NaN included. *)
Lemma clamp_lower (x lo hi : float) :
  is_nan lo = false -> leb lo (py_max lo (py_min x hi)) = true.
Proof.
  intros Hlo. unfold py_max.
  destruct (ltb lo (py_min x hi)) eqn:E.
  - now apply ltb_leb.
  - now apply leb_refl.
Qed.

Lemma clamp_upper (x lo hi : float) :
  leb lo hi = true -> leb (py_max lo (py_min x hi)) hi = true.
Proof.
  intros Hle. destruct (leb_not_nan _ _ Hle) as [Hlo Hhi].
  unfold py_max, py_min.
  destruct (ltb hi x) eqn:E1.
  - destruct (ltb lo hi); [now apply leb_refl | exact Hle].
  - destruct (ltb lo x) eqn:E2; [|exact Hle].
    apply not_ltb_leb; auto. now destruct (ltb_not_nan _ _ E2).
Qed.

(** A request first lowered to a hard cap [h] stays below [h] after the
    clamp. *)
Lemma clamp_hard_cap (x lo hi h : float) :
  leb lo h = true ->
  leb (py_max lo (py_min (if ltb h x then h else x) hi)) h = true.
Proof.
  intros Hle. destruct (leb_not_nan _ _ Hle) as [Hlo Hh].
  set (p := if ltb h x then h else x).
  assert (Hp : is_nan p = false -> leb p h = true).
  { unfold p. destruct (ltb h x) eqn:E; intros Hn.
    - now apply leb_refl.
    - apply not_ltb_leb; auto. }
  unfold py_max, py_min.
  destruct (ltb hi p) eqn:E1.
  - destruct (ltb lo hi) eqn:E2; [|exact Hle].
    apply ltb_leb. apply ltb_leb_trans with p; auto.
    apply Hp. now destruct (ltb_not_nan _ _ E1).
  - destruct (ltb lo p) eqn:E2; [|exact Hle].
    apply Hp. now destruct (ltb_not_nan _ _ E2).
Qed.

End FloatOrder.

(** ** The safe-ratio policy *)

Section SafeRatioPolicy.

Import PyFloat PyStr QrCreator.


(** The raw cap takes one of fifteen values, all between 0.08 and 0.22; the
    lookup default covers a level outside the table. *)
Lemma safe_cap_range (ec mc : Z) :
  leb (dec2 8) (safe_cap ec mc) = true /\ leb (safe_cap ec mc) (dec2 20) = true.
Proof.
  unfold safe_cap, _max_safe_logo_ratio, dict_get,
    ERROR_CORRECT_L, ERROR_CORRECT_M, ERROR_CORRECT_Q, ERROR_CORRECT_H.
  destruct (1 =? ec); [|destruct (0 =? ec); [|destruct (3 =? ec); [|destruct (2 =? ec)]]];
    (destruct (45 <=? mc); [|destruct (33 <=? mc)]);
    vm_compute; split; reflexivity.
Qed.

(** C1: for each of the four error-correction levels and every module count,
    the cap that [create_qr_with_logo] clamps against is
    min(max(0.08, base - penalty), 0.20), with the base of the level
    (L 0.12, M 0.15, Q 0.18, H 0.22) and the density penalty (0.03 from 45
    modules, 0.02 from 33 to 44, none below). *)
Theorem C1_effective_cap (l : Policy.ec_level) (module_count : Z) :
  safe_cap (Policy.ec_const l) module_count
  = py_min (py_max (dec2 8)
              (sub (Policy.base_cap l) (Policy.density_penalty module_count)))
           (dec2 20).
Proof.
  unfold safe_cap, _max_safe_logo_ratio, Policy.density_penalty.
  replace (dict_get _ (Policy.ec_const l) (dec2 18)) with (Policy.base_cap l)
    by (destruct l; reflexivity).
  destruct (Z.leb_spec 45 module_count) as [H45|H45]; [reflexivity|].
  destruct (Z.leb_spec 33 module_count) as [H33|H33]; simpl.
  - destruct (Z.ltb_spec module_count 45); [reflexivity|lia].
  - reflexivity.
Qed.

(** C6: for a fixed module count the cap does not decrease along
    L < M < Q < H, both before and after the 0.20 ceiling. *)
Theorem C6_cap_monotone_in_level (l1 l2 : Policy.ec_level) (module_count : Z) :
  (Policy.ec_rank l1 <= Policy.ec_rank l2)%nat ->
  leb (_max_safe_logo_ratio (Policy.ec_const l1) module_count)
      (_max_safe_logo_ratio (Policy.ec_const l2) module_count) = true /\
  leb (safe_cap (Policy.ec_const l1) module_count)
      (safe_cap (Policy.ec_const l2) module_count) = true.
Proof.
  intros Hrank.
  unfold safe_cap, _max_safe_logo_ratio.
  destruct (45 <=? module_count); [|destruct (33 <=? module_count)];
    destruct l1, l2; simpl in Hrank; try lia; vm_compute; split; reflexivity.
Qed.

Lemma C6_cap_monotone_in_level_witness :
  (Policy.ec_rank Policy.M <= Policy.ec_rank Policy.H)%nat /\
  leb (_max_safe_logo_ratio (Policy.ec_const Policy.M) 37)
      (_max_safe_logo_ratio (Policy.ec_const Policy.H) 37) = true /\
  leb (safe_cap (Policy.ec_const Policy.M) 37)
      (safe_cap (Policy.ec_const Policy.H) 37) = true.
Proof.
  split; [simpl; lia|].
  apply (C6_cap_monotone_in_level Policy.M Policy.H 37). simpl; lia.
Defined.

Lemma ascii_upper_below_128 (c : N) :
  (ascii_upper c <? 128)%N = (c <? 128)%N.
Proof.
  unfold ascii_upper.
  destruct (N.leb_spec 97 c), (N.leb_spec c 122); simpl; try reflexivity.
  destruct (N.ltb_spec (c - 32) 128), (N.ltb_spec c 128); try reflexivity; lia.
Qed.

(** A text that begins, up to the case of ASCII letters, with an ASCII
    prefix is found by the code's test on the upper-cased text, whatever the
    case table does outside ASCII. *)
Lemma startswith_upper (up : N -> list N) (p : str) :
  forallb (fun c => (c <? 128)%N) p = true ->
  forall s : str,
    startswith_nocase s p = true ->
    startswith (upper up s) (map ascii_upper p) = true.
Proof.
  induction p as [|a p IH]; intros Hp s H; [reflexivity|].
  destruct s as [|c s]; [discriminate|].
  simpl in Hp, H. apply andb_prop in Hp as [Ha Hp].
  apply andb_prop in H as [Hc H]. apply N.eqb_eq in Hc.
  assert (Hc128 : (c <? 128)%N = true)
    by (rewrite <- ascii_upper_below_128, Hc, ascii_upper_below_128; exact Ha).
  cbn [upper flat_map map]. unfold upper_char at 1. rewrite Hc128.
  cbn [app startswith]. rewrite Hc, N.eqb_refl. cbn [andb].
  now apply IH.
Qed.

(** On ASCII text the case table is not consulted. *)
Lemma upper_ascii_text (up1 up2 : N -> list N) (s : str) :
  forallb (fun c => (c <? 128)%N) s = true -> upper up1 s = upper up2 s.
Proof.
  induction s as [|c s IH]; [reflexivity|].
  simpl. intros H. apply andb_prop in H as [Hc Hs].
  unfold upper_char. rewrite Hc. f_equal. now apply IH.
Qed.

Lemma nocase_vcard (up : N -> list N) (s : str) :
  startswith_nocase s (lit "BEGIN:VCARD") = true ->
  startswith (upper up s) (lit "BEGIN:VCARD") = true.
Proof. apply (startswith_upper up (lit "BEGIN:VCARD")). reflexivity. Qed.

Lemma nocase_mecard (up : N -> list N) (s : str) :
  startswith_nocase s (lit "MECARD:") = true ->
  startswith (upper up s) (lit "MECARD:") = true.
Proof. apply (startswith_upper up (lit "MECARD:")). reflexivity. Qed.

Lemma preclamp_vcard up data r b :
  startswith (upper up (strip data)) (lit "BEGIN:VCARD") = true ->
  contact_preclamp up data r b
  = ((if ltb (dec2 16) r then dec2 16 else r), py_max_int b 4).
Proof. unfold contact_preclamp. now intros ->. Qed.

Lemma mecard_is_no_vcard (u : str) :
  startswith u (lit "MECARD:") = true ->
  startswith u (lit "BEGIN:VCARD") = false.
Proof.
  destruct u as [|c u]; [discriminate|].
  cbn. destruct (N.eqb_spec c 77) as [->|]; [reflexivity|discriminate].
Qed.

Lemma preclamp_mecard up data r b :
  startswith (upper up (strip data)) (lit "MECARD:") = true ->
  contact_preclamp up data r b
  = ((if ltb (dec2 18) r then dec2 18 else r), py_max_int b 4).
Proof.
  unfold contact_preclamp. intros Hm.
  now rewrite (mecard_is_no_vcard _ Hm), Hm.
Qed.

Lemma preclamp_plain up data r b :
  startswith (upper up (strip data)) (lit "BEGIN:VCARD") = false ->
  startswith (upper up (strip data)) (lit "MECARD:") = false ->
  contact_preclamp up data r b = (r, b).
Proof. unfold contact_preclamp. now intros -> ->. Qed.

(** The two scenarios of the specification: level H, 21 modules, request
    0.25 gives 0.20; level L, 50 modules, request 0.15 gives 0.09. *)
Example scenario_H_21 :
  safe_cap ERROR_CORRECT_H 21 = dec2 20 /\
  applied_logo_ratio no_case_table (lit "https://example.org") (dec2 25) 4
    ERROR_CORRECT_H 21 = dec2 20.
Proof. vm_compute. auto. Qed.

Example scenario_L_50 :
  safe_cap ERROR_CORRECT_L 50 = dec2 9 /\
  applied_logo_ratio no_case_table (lit "https://example.org") (dec2 15) 4
    ERROR_CORRECT_L 50 = dec2 9.
Proof. vm_compute. auto. Qed.

(** A NaN request falls to the floor, an infinite one to the cap. *)
Example request_nan_and_inf :
  applied_logo_ratio no_case_table (lit "https://example.org") nan 4
    ERROR_CORRECT_H 21 = dec2 8 /\
  applied_logo_ratio no_case_table (lit "https://example.org") inf 4
    ERROR_CORRECT_H 21 = dec2 20.
Proof. vm_compute. auto. Qed.

(** A no-break space before the marker is stripped like any other
    whitespace, and a dotless i is an I once upper-cased when the case table
    says so: both payloads are vCards for the code. *)
Example vcard_after_no_break_space :
  contact_preclamp no_case_table (0xA0%N :: lit "BEGIN:VCARD") (dec2 20) 1
  = (dec2 16, 4) /\
  contact_preclamp (fun c => if (c =? 0x131)%N then [73%N] else [c])
    (lit "beg" ++ [0x131%N] ++ lit "n:vcard") (dec2 20) 1
  = (dec2 16, 4).
Proof. vm_compute. auto. Qed.

(** C2 (as amended): for every payload, requested ratio, level and module
    count, the applied ratio is clamp(p, 0.08, cap), where p is
    min(requested, 0.16) for a payload detected as a vCard,
    min(requested, 0.18) for one detected as a MECARD, and the requested
    ratio itself for any other payload; it is never below 0.08, never above
    the cap and never above 0.20. *)
Theorem C2_applied_ratio_clamped (up : N -> list N) (data : str)
    (requested : float) (border_size ec module_count : Z) :
  let u := upper up (strip data) in
  let c := safe_cap ec module_count in
  let a := applied_logo_ratio up data requested border_size ec module_count in
  (startswith u (lit "BEGIN:VCARD") = true ->
   a = Policy.clamp (py_min requested (dec2 16)) (dec2 8) c) /\
  (startswith u (lit "BEGIN:VCARD") = false ->
   startswith u (lit "MECARD:") = true ->
   a = Policy.clamp (py_min requested (dec2 18)) (dec2 8) c) /\
  (startswith u (lit "BEGIN:VCARD") = false ->
   startswith u (lit "MECARD:") = false ->
   a = Policy.clamp requested (dec2 8) c) /\
  leb (dec2 8) a = true /\
  leb a c = true /\
  leb a (dec2 20) = true.
Proof.
  intros u c a.
  destruct (safe_cap_range ec module_count) as [Hlo Hhi].
  assert (Hcap : leb a c = true) by (apply clamp_upper; exact Hlo).
  split; [|split; [|split]].
  - intros Hv. unfold a, applied_logo_ratio.
    now rewrite (preclamp_vcard _ _ _ _ Hv).
  - intros _ Hm. unfold a, applied_logo_ratio.
    now rewrite (preclamp_mecard _ _ _ _ Hm).
  - intros Hv Hm. unfold a, applied_logo_ratio.
    now rewrite (preclamp_plain _ _ _ _ Hv Hm).
  - split; [apply clamp_lower; reflexivity|].
    split; [exact Hcap|].
    now apply leb_trans with c.
Qed.

Lemma C2_applied_ratio_clamped_witness :
  applied_logo_ratio no_case_table (0xA0%N :: lit "begin:VCard") (dec2 20) 4
    ERROR_CORRECT_H 21
  = Policy.clamp (py_min (dec2 20) (dec2 16)) (dec2 8)
      (safe_cap ERROR_CORRECT_H 21) /\
  applied_logo_ratio no_case_table (lit "MECARD:N:Doe;;") (dec2 25) 4
    ERROR_CORRECT_H 21
  = Policy.clamp (py_min (dec2 25) (dec2 18)) (dec2 8)
      (safe_cap ERROR_CORRECT_H 21) /\
  applied_logo_ratio no_case_table (lit "https://example.org") (dec2 25) 4
    ERROR_CORRECT_H 21
  = Policy.clamp (dec2 25) (dec2 8) (safe_cap ERROR_CORRECT_H 21).
Proof.
  split; [|split].
  - destruct (C2_applied_ratio_clamped no_case_table
                (0xA0%N :: lit "begin:VCard") (dec2 20) 4 ERROR_CORRECT_H 21)
      as (Hv & _).
    apply Hv. reflexivity.
  - destruct (C2_applied_ratio_clamped no_case_table (lit "MECARD:N:Doe;;")
                (dec2 25) 4 ERROR_CORRECT_H 21) as (_ & Hm & _).
    apply Hm; reflexivity.
  - destruct (C2_applied_ratio_clamped no_case_table
                (lit "https://example.org") (dec2 25) 4 ERROR_CORRECT_H 21)
      as (_ & _ & Hplain & _).
    apply Hplain; reflexivity.
Defined.

(** C2, counterexample: a vCard payload with a requested ratio of 0.20 at
    level H and 21 modules gets 0.16, whereas clamp(0.20, 0.08, cap) is 0.20
    (the payload is ASCII, so the case table plays no part). *)
Lemma C2_counterexample :
  safe_cap ERROR_CORRECT_H 21 = dec2 20 /\
  applied_logo_ratio no_case_table (lit "BEGIN:VCARD") (dec2 20) 4
    ERROR_CORRECT_H 21 = dec2 16 /\
  Policy.clamp (dec2 20) (dec2 8) (safe_cap ERROR_CORRECT_H 21) = dec2 20 /\
  applied_logo_ratio no_case_table (lit "BEGIN:VCARD") (dec2 20) 4
    ERROR_CORRECT_H 21
  <> Policy.clamp (dec2 20) (dec2 8) (safe_cap ERROR_CORRECT_H 21).
Proof.
  vm_compute. repeat split; try reflexivity. discriminate.
Qed.

(** C3: when the stripped payload begins, up to case, with BEGIN:VCARD (or,
    more generally, when its upper-cased form does), the requested ratio is
    first lowered to 0.16 and then clamped, so the applied ratio is at most
    0.16 whatever the request, the level and the module count; with MECARD:
    the same holds with 0.18. *)
Theorem C3_contact_hard_cap (up : N -> list N) (data : str)
    (requested : float) (border_size ec module_count : Z) :
  let a := applied_logo_ratio up data requested border_size ec module_count in
  (startswith_nocase (strip data) (lit "BEGIN:VCARD") = true \/
   startswith (upper up (strip data)) (lit "BEGIN:VCARD") = true ->
   a = clamp_ratio (if ltb (dec2 16) requested then dec2 16 else requested)
                   (safe_cap ec module_count) /\
   leb a (dec2 16) = true) /\
  (startswith_nocase (strip data) (lit "MECARD:") = true \/
   startswith (upper up (strip data)) (lit "MECARD:") = true ->
   a = clamp_ratio (if ltb (dec2 18) requested then dec2 18 else requested)
                   (safe_cap ec module_count) /\
   leb a (dec2 18) = true).
Proof.
  intros a. unfold a, applied_logo_ratio. split; intros Hp.
  - assert (Hv : startswith (upper up (strip data)) (lit "BEGIN:VCARD") = true)
      by (destruct Hp as [Hp|Hp]; [now apply nocase_vcard | exact Hp]).
    rewrite (preclamp_vcard _ _ _ _ Hv).
    split; [reflexivity|]. apply clamp_hard_cap. reflexivity.
  - assert (Hm : startswith (upper up (strip data)) (lit "MECARD:") = true)
      by (destruct Hp as [Hp|Hp]; [now apply nocase_mecard | exact Hp]).
    rewrite (preclamp_mecard _ _ _ _ Hm).
    split; [reflexivity|]. apply clamp_hard_cap. reflexivity.
Qed.

Lemma C3_contact_hard_cap_witness :
  leb (applied_logo_ratio no_case_table (0xA0%N :: lit " begin:vCard")
         (dec2 20) 4 ERROR_CORRECT_H 21) (dec2 16) = true /\
  leb (applied_logo_ratio no_case_table (lit "MeCard:N:Doe;;") (dec2 30) 4
         ERROR_CORRECT_H 21) (dec2 18) = true.
Proof.
  split.
  - destruct (C3_contact_hard_cap no_case_table (0xA0%N :: lit " begin:vCard")
                (dec2 20) 4 ERROR_CORRECT_H 21) as [Hv _].
    apply Hv. left. reflexivity.
  - destruct (C3_contact_hard_cap no_case_table (lit "MeCard:N:Doe;;")
                (dec2 30) 4 ERROR_CORRECT_H 21) as [_ Hm].
    apply Hm. left. reflexivity.
Defined.

(** C10: when the stripped, upper-cased payload begins with BEGIN:VCARD or
    MECARD:, the border given to the encoder is max(border_size, 4), hence at
    least 4; for any other payload it is the caller's border_size. *)
Theorem C10_contact_border (up : N -> list N) (data : str)
    (requested : float) (border_size : Z) :
  let u := upper up (strip data) in
  (startswith u (lit "BEGIN:VCARD") || startswith u (lit "MECARD:") = true ->
   encoder_border up data requested border_size = Z.max border_size 4 /\
   4 <= encoder_border up data requested border_size) /\
  (startswith u (lit "BEGIN:VCARD") || startswith u (lit "MECARD:") = false ->
   encoder_border up data requested border_size = border_size).
Proof.
  intros u. unfold encoder_border.
  assert (Hmax : py_max_int border_size 4 = Z.max border_size 4).
  { unfold py_max_int. destruct (Z.ltb_spec border_size 4); lia. }
  split; intros H.
  - assert (Hb : snd (contact_preclamp up data requested border_size)
                 = Z.max border_size 4).
    { apply orb_prop in H as [H|H].
      - now rewrite (preclamp_vcard _ _ _ _ H).
      - now rewrite (preclamp_mecard _ _ _ _ H). }
    rewrite Hb. split; [reflexivity|lia].
  - apply orb_false_elim in H as [Hv Hm].
    now rewrite (preclamp_plain _ _ _ _ Hv Hm).
Qed.

Lemma C10_contact_border_witness :
  encoder_border no_case_table (0xA0%N :: lit "begin:vcard") (dec2 18) 1 = 4 /\
  encoder_border no_case_table (lit "mecard:N:Doe;;") (dec2 18) 7 = 7 /\
  encoder_border no_case_table (lit "https://example.org") (dec2 18) 1 = 1.
Proof.
  split; [|split].
  - destruct (C10_contact_border no_case_table (0xA0%N :: lit "begin:vcard")
                (dec2 18) 1) as [H _].
    destruct H as [H _]; [reflexivity | exact H].
  - destruct (C10_contact_border no_case_table (lit "mecard:N:Doe;;")
                (dec2 18) 7) as [H _].
    destruct H as [H _]; [reflexivity | exact H].
  - destruct (C10_contact_border no_case_table (lit "https://example.org")
                (dec2 18) 1) as [_ H].
    apply H. reflexivity.
Defined.

End SafeRatioPolicy.

(** ** The validation loop *)

Section ValidationLoop.

Import PyFloat QrCreator.

(** The retries from 0.18: each step subtracts 0.02 and rounds to two
    decimals. *)
Example retry_from_0_18 :
  retry_ratio (dec2 18) = dec2 16 /\
  retry_ratio (dec2 16) = dec2 14 /\
  retry_ratio (dec2 14) = dec2 12.
Proof. vm_compute. auto. Qed.

(** Without the rounding the third step would miss 0.12 by one unit in the
    last place. *)
Example unrounded_step_misses_floor :
  sub (dec2 14) (dec2 2) <> dec2 12 /\ py_round2 (sub (dec2 14) (dec2 2)) = dec2 12.
Proof. vm_compute. split; [discriminate|reflexivity]. Qed.

(** C4: with validation and auto-tune enabled, a starting ratio of 0.18 and a
    decode that fails on every attempt, the loop attempts exactly 0.18, 0.16,
    0.14 and 0.12 and then stops with a failed validation; four iterations
    are needed and any larger bound gives the same run. *)
Theorem C4_retry_sequence_from_0_18 (extra : nat) :
  main_loop (4 + extra) true true (fun _ => false) 0 (dec2 18)
  = Some ([dec2 18; dec2 16; dec2 14; dec2 12], false) /\
  main_loop 3 true true (fun _ => false) 0 (dec2 18) = None.
Proof.
  split; [|vm_compute; reflexivity].
  change (4 + extra)%nat with (S (S (S (S extra)))).
  vm_compute. reflexivity.
Qed.

(** A ratio above the floor that a retry leaves unchanged is attempted for
    ever when decoding keeps failing. *)
Lemma main_loop_stuck (ratio : float) :
  retry_ratio ratio = ratio -> leb ratio (dec2 12) = false ->
  forall fuel attempt,
    main_loop fuel true true (fun _ => false) attempt ratio = None.
Proof.
  intros Hfix Hfloor. induction fuel as [|fuel IH]; intros attempt.
  - reflexivity.
  - simpl. rewrite Hfloor, Hfix. simpl. now rewrite IH.
Qed.

(** C5, the defect: started at [inf] (which [--ratio inf] yields) or at 1e17,
    with validation and auto-tune on and a decode that always fails, a retry
    does not lower the ratio and no number of iterations reaches a [break]. *)
Theorem C5_loop_does_not_terminate :
  retry_ratio inf = inf /\
  retry_ratio (of_int (10 ^ 17)) = of_int (10 ^ 17) /\
  (forall fuel, main_loop fuel true true (fun _ => false) 0 inf = None) /\
  (forall fuel,
     main_loop fuel true true (fun _ => false) 0 (of_int (10 ^ 17)) = None).
Proof.
  assert (Hinf : retry_ratio inf = inf) by (vm_compute; reflexivity).
  assert (Hbig : retry_ratio (of_int (10 ^ 17)) = of_int (10 ^ 17))
    by (vm_compute; reflexivity).
  repeat split; try assumption; intros fuel.
  - apply main_loop_stuck; [exact Hinf | vm_compute; reflexivity].
  - apply main_loop_stuck; [exact Hbig | vm_compute; reflexivity].
Qed.

(** The loop does stop at once when the ratio is at or below the floor, when
    auto-tune is off, when the first decode succeeds and when validation is
    off. *)
Lemma main_loop_immediate_exit (fuel : nat) (validate auto_tune : bool)
    (can_decode : nat -> bool) (attempt : nat) (ratio : float) :
  validate = false \/ can_decode attempt = true \/ auto_tune = false \/
  leb ratio (dec2 12) = true ->
  main_loop (S fuel) validate auto_tune can_decode attempt ratio
  = Some ([ratio], if validate then can_decode attempt else true).
Proof.
  simpl. intros [->|[H|[->|H]]]; try reflexivity.
  - destruct validate; [now rewrite H|reflexivity].
  - destruct validate; [|reflexivity].
    now rewrite orb_true_r.
  - destruct validate; [|reflexivity].
    now rewrite H, orb_true_r.
Qed.

(** A run in which decoding always fails is the longest one: when it
    returns within [fuel] iterations, so does the run from the same ratio
    under any flags and any decoder. *)
Lemma main_loop_failing_decoder_is_longest (fuel : nat) :
  forall (ratio : float) (k : nat),
    main_loop fuel true true (fun _ => false) k ratio <> None ->
    forall validate auto_tune can_decode attempt,
      main_loop fuel validate auto_tune can_decode attempt ratio <> None.
Proof.
  induction fuel as [|fuel IH]; intros ratio k Hfail validate auto_tune
    can_decode attempt; [now contradiction Hfail|].
  simpl in *.
  destruct validate; [|discriminate].
  destruct (can_decode attempt || negb auto_tune || leb ratio (dec2 12))
    eqn:Hexit; [discriminate|].
  apply orb_false_elim in Hexit as [_ Hfloor]. rewrite Hfloor in Hfail.
  simpl in Hfail.
  destruct (main_loop fuel true true (fun _ => false) (S k) (retry_ratio ratio))
    as [[rs ok]|] eqn:Hrec; [|now contradiction Hfail].
  assert (Hnext : main_loop fuel true auto_tune can_decode (S attempt)
                    (retry_ratio ratio) <> None)
    by (apply (IH _ (S k)); rewrite Hrec; discriminate).
  destruct (main_loop fuel true auto_tune can_decode (S attempt)
              (retry_ratio ratio)) as [[rs' ok']|];
    [discriminate|now contradiction Hnext].
Qed.

(** From 0.30, the largest ratio the interactive path lets through, ten
    attempts reach the floor. *)
Example retry_sequence_from_0_30 :
  main_loop 10 true true (fun _ => false) 0 (dec2 30)
  = Some ([dec2 30; dec2 28; dec2 26; dec2 24; dec2 22; dec2 20; dec2 18;
           dec2 16; dec2 14; dec2 12], false).
Proof. vm_compute. reflexivity. Qed.

End ValidationLoop.

(** ** vCard escaping *)

Section Escaping.

Import PyStr QrCreator.

Lemma replace_single (s : str) (old : N) (new : str) :
  replace s [old] new = flat_map (subst_char old new) s.
Proof.
  unfold replace.
  induction s as [|c s IH]; [reflexivity|].
  simpl. unfold subst_char at 1.
  rewrite andb_true_r.
  destruct (N.eqb c old); simpl; now rewrite IH.
Qed.

Lemma replace_crlf_absent (s : str) (new : str) :
  Policy.no_crlf s = true -> replace s [CR; LF] new = s.
Proof.
  unfold replace.
  induction s as [|c s IH]; [reflexivity|].
  intros H. simpl in H. apply andb_prop in H as [Hc Hs].
  simpl.
  destruct s as [|d s'].
  - rewrite andb_false_r. reflexivity.
  - rewrite andb_true_r.
    destruct (N.eqb c CR && N.eqb d LF)%bool; [discriminate|].
    f_equal. now apply IH.
Qed.

Lemma no_crlf_after_backslashes (s : str) :
  Policy.no_crlf s = true ->
  Policy.no_crlf (flat_map (subst_char BACKSLASH [BACKSLASH; BACKSLASH]) s) = true.
Proof.
  induction s as [|c s IH]; [reflexivity|].
  intros H. simpl in H. apply andb_prop in H as [Hc Hs].
  specialize (IH Hs).
  simpl. unfold subst_char at 1.
  destruct (N.eqb c BACKSLASH) eqn:Ec.
  - simpl. exact IH.
  - simpl. rewrite IH, andb_true_r.
    destruct s as [|d s']; [exact Hc|].
    simpl. unfold subst_char at 1.
    destruct (N.eqb d BACKSLASH) eqn:Ed; simpl; [|exact Hc].
    now rewrite andb_false_r.
Qed.

Lemma flat_map_flat_map {A B C : Type} (f : A -> list B) (g : B -> list C)
    (l : list A) :
  flat_map g (flat_map f l) = flat_map (fun a => flat_map g (f a)) l.
Proof.
  induction l as [|a l IH]; [reflexivity|].
  simpl. now rewrite flat_map_app, IH.
Qed.

Lemma escape_char_steps (c : N) :
  flat_map (subst_char COMMA [BACKSLASH; COMMA])
    (flat_map (subst_char SEMICOLON [BACKSLASH; SEMICOLON])
       (flat_map (subst_char LF [BACKSLASH; LETTER_n])
          (subst_char BACKSLASH [BACKSLASH; BACKSLASH] c)))
  = Policy.escape_char c.
Proof.
  unfold Policy.escape_char.
  destruct (N.eqb_spec c BACKSLASH) as [->|H1]; [reflexivity|].
  destruct (N.eqb_spec c LF) as [->|H2]; [reflexivity|].
  destruct (N.eqb_spec c SEMICOLON) as [->|H3]; [reflexivity|].
  destruct (N.eqb_spec c COMMA) as [->|H4]; [reflexivity|].
  apply N.eqb_neq in H1, H2, H3, H4.
  unfold subst_char at 4. rewrite H1. cbn [flat_map app].
  unfold subst_char at 3. rewrite H2. cbn [flat_map app].
  unfold subst_char at 2. rewrite H3. cbn [flat_map app].
  unfold subst_char. rewrite H4. reflexivity.
Qed.

(** Without a CR LF pair the escaping works character by character. *)
Lemma escape_vcard_charwise (s : str) :
  Policy.no_crlf s = true ->
  _escape_vcard (Some s) = flat_map Policy.escape_char s.
Proof.
  intros H. destruct s as [|c s]; [reflexivity|].
  unfold _escape_vcard.
  rewrite (replace_single (c :: s)).
  rewrite replace_crlf_absent by now apply no_crlf_after_backslashes.
  rewrite !replace_single, !flat_map_flat_map.
  apply flat_map_ext. intros a.
  rewrite <- !flat_map_flat_map. apply escape_char_steps.
Qed.

Lemma unescape_escape_char (c : N) (rest : str) :
  Policy.unescape_vcard (Policy.escape_char c ++ rest)
  = c :: Policy.unescape_vcard rest.
Proof.
  unfold Policy.escape_char.
  destruct (N.eqb_spec c BACKSLASH) as [->|H1]; [reflexivity|].
  destruct (N.eqb_spec c LF) as [->|H2]; [reflexivity|].
  destruct (N.eqb_spec c SEMICOLON) as [->|H3]; [reflexivity|].
  destruct (N.eqb_spec c COMMA) as [->|H4]; [reflexivity|].
  apply N.eqb_neq in H1.
  cbn [app Policy.unescape_vcard]. now rewrite H1.
Qed.

(** C7 (as amended): for every text in which no carriage return is
    immediately followed by a line feed (semicolons, commas, backslashes and
    newlines included), escaping with [_escape_vcard] and then unescaping
    gives the text back. *)
Theorem C7_escape_then_unescape (s : str) :
  Policy.no_crlf s = true ->
  Policy.unescape_vcard (_escape_vcard (Some s)) = s.
Proof.
  intros H. rewrite (escape_vcard_charwise s H). clear H.
  induction s as [|c s IH]; [reflexivity|].
  simpl. now rewrite unescape_escape_char, IH.
Qed.

Lemma C7_escape_then_unescape_witness :
  Policy.no_crlf (lit "Doe;John,Jr\n" ++ [LF; CR] ++ lit "2nd line") = true /\
  Policy.unescape_vcard
    (_escape_vcard (Some (lit "Doe;John,Jr\n" ++ [LF; CR] ++ lit "2nd line")))
  = lit "Doe;John,Jr\n" ++ [LF; CR] ++ lit "2nd line".
Proof.
  split; [reflexivity|].
  apply (C7_escape_then_unescape
           (lit "Doe;John,Jr\n" ++ [LF; CR] ++ lit "2nd line")).
  reflexivity.
Defined.

(** C7, counterexample: a CR LF pair and a lone line feed have the same
    escaping, so no unescaping recovers every input. *)
Lemma C7_counterexample :
  _escape_vcard (Some [CR; LF]) = _escape_vcard (Some [LF]) /\
  ~ (exists unescape : str -> str,
       forall s : str, unescape (_escape_vcard (Some s)) = s).
Proof.
  split; [reflexivity|].
  intros [unescape Hall].
  pose proof (Hall [CR; LF]) as H1.
  pose proof (Hall [LF]) as H2.
  assert (E : [CR; LF] = [LF]) by exact (eq_trans (eq_sym H1) H2).
  discriminate E.
Qed.

End Escaping.

(** ** Logo scaling *)

Section LogoScaling.

Import PyFloat PyStr QrCreator.

(** A 29-module symbol with border 4 and box size 12 is 444 pixels wide; at
    ratio 0.18 the bounding side is 79. *)
Example max_side_444 :
  resize_logo 444 444 (dec2 18) 300 200 = inr (79, 79, 53) /\
  resize_logo 444 444 (dec2 18) 200 300 = inr (79, 53, 79) /\
  resize_logo 444 444 (dec2 18) 64 64 = inr (79, 79, 79).
Proof. vm_compute. auto. Qed.


(** A logo so thin that its shorter side rounds to 0 is not resized: the
    call raises the [ValueError] of [logo.resize]. *)
Example thin_logo_is_refused :
  resize_logo 444 444 (dec2 18) 1000 1 = inr (79, 79, 0) /\
  create_qr_with_logo (fun _ => Some [0; 0; 0]) no_case_table
    (lit "https://example.org") true (Some (1000, 1))
    (ColorStr (lit "black")) (ColorStr (lit "white")) (dec2 18) 4
    ERROR_CORRECT_H (Some (ColorStr (lit "black"))) 29 444 444
  = inl ValueError.
Proof. vm_compute. auto. Qed.

(** With the default outline, the tuple (0, 0, 0), no call returns: the
    outline is normalised at line 248 and a tuple is an invalid colour. *)
Lemma default_outline_is_refused getrgb_str up data logo_exists logo fill back
    r border_size ec t mc qw qh lay :
  create_qr_with_logo getrgb_str up data logo_exists logo fill back r
    border_size ec (Some (ColorTuple t)) mc qw qh <> inr lay.
Proof.
  unfold create_qr_with_logo.
  destruct data as [|c data']; [discriminate|].
  destruct logo_exists; [|discriminate]. cbn [negb].
  destruct (_normalize_color getrgb_str fill) as [e|fill_rgb];
    cbn [bind]; [discriminate|].
  destruct (_normalize_color getrgb_str back) as [e|back_rgb];
    cbn [bind]; [discriminate|].
  destruct (contact_preclamp up (c :: data') r border_size) as [ratio b].
  destruct logo as [[lw lh]|]; cbn [of_option bind]; [|discriminate].
  destruct (resize_logo qw qh (clamp_ratio ratio (safe_cap ec mc)) lw lh)
    as [e|[[ms w] h]]; cbn [bind]; [discriminate|].
  destruct (pil_resize lw lh w h) as [e|[w' h']]; cbn [bind]; [discriminate|].
  destruct (_normalize_color getrgb_str (ColorStr (lit "white")))
    as [e|white]; cbn [bind]; discriminate.
Qed.



End LogoScaling.

(** ** Colour normalisation *)

Section ColorResolver.

Import PyStr QrCreator.

Variable getrgb_str : str -> option (list Z).

(** On a colour string the parser's triple is returned as it is and the
    alpha of a quadruple is dropped; a string the parser rejects is an
    invalid colour. *)
Lemma normalize_color_string (s : str) :
  match getrgb_str s with
  | Some rgb =>
      _normalize_color getrgb_str (ColorStr s)
      = inr (if (3 <? List.length rgb)%nat then firstn 3 rgb else rgb)
  | None => _normalize_color getrgb_str (ColorStr s) = inl ValueError
  end.
Proof.
  unfold _normalize_color, getrgb. destruct (getrgb_str s); reflexivity.
Qed.

(** C9, the defect: a numeric tuple, (0, 0, 0) included, is rejected as an
    invalid colour whatever the string parser accepts, because the parser is
    applied to it as to a string. *)
Theorem C9_numeric_tuple_is_rejected (t : list Z) :
  _normalize_color getrgb_str (ColorTuple t) = inl ValueError /\
  _normalize_color getrgb_str (ColorTuple [0; 0; 0]) = inl ValueError.
Proof. split; reflexivity. Qed.

End ColorResolver.

(** ** Further facts on the safe-ratio policy *)

Section SafeRatioMore.

Import PyFloat PyStr QrCreator.

Lemma leb_ltb_false (a b : float) : leb a b = true -> ltb b a = false.
Proof.
  unfold leb, ltb, SFleb, SFltb. rewrite (SFcompare_antisym a b).
  destruct (SFcompare a b) as [[ | | ]|]; simpl; congruence.
Qed.

(** Two values that compare equal are the same value when one of them is
    finite and not a zero. *)
Lemma leb_antisym_finite (a : float) (s : bool) (m : positive) (e : Z) :
  leb a (S754_finite s m e) = true -> leb (S754_finite s m e) a = true ->
  a = S754_finite s m e.
Proof.
  intros H1 H2. apply leb_ltb_false in H2.
  unfold leb, ltb, SFleb, SFltb in *.
  destruct a as [sa|sa| |sa ma ea]; simpl in *; try discriminate;
    try (destruct sa, s; discriminate); try (destruct s; discriminate);
    try (destruct sa; discriminate).
  change (Pos.compare_cont Eq) with Pos.compare in *.
  destruct sa, s; try discriminate;
    destruct (Z.compare_spec ea e); try discriminate; subst;
    destruct (Pos.compare_spec ma m); try discriminate; subst; reflexivity.
Qed.

Lemma py_min_monotone (c r1 r2 : float) :
  is_nan c = false -> leb r1 r2 = true ->
  leb (py_min r1 c) (py_min r2 c) = true.
Proof.
  intros Hc H. destruct (leb_not_nan _ _ H) as [H1 H2]. unfold py_min.
  destruct (ltb c r1) eqn:E1, (ltb c r2) eqn:E2.
  - now apply leb_refl.
  - rewrite (ltb_leb_trans c r1 r2 E1 H) in E2. discriminate.
  - now apply not_ltb_leb.
  - exact H.
Qed.

Lemma py_max_monotone (lo x1 x2 : float) :
  is_nan lo = false -> leb x1 x2 = true ->
  leb (py_max lo x1) (py_max lo x2) = true.
Proof.
  intros Hlo H. unfold py_max.
  destruct (ltb lo x1) eqn:E1, (ltb lo x2) eqn:E2.
  - exact H.
  - rewrite (ltb_leb_trans lo x1 x2 E1 H) in E2. discriminate.
  - now apply ltb_leb.
  - now apply leb_refl.
Qed.

Lemma py_max_lower (lo x : float) :
  is_nan lo = false -> leb lo (py_max lo x) = true.
Proof.
  intros Hlo. unfold py_max. destruct (ltb lo x) eqn:E.
  - now apply ltb_leb.
  - now apply leb_refl.
Qed.

Lemma hard_cap_monotone (h r1 r2 : float) :
  is_nan h = false -> leb r1 r2 = true ->
  leb (if ltb h r1 then h else r1) (if ltb h r2 then h else r2) = true.
Proof. intros Hh H. exact (py_min_monotone h r1 r2 Hh H). Qed.

Lemma safe_cap_not_nan (ec mc : Z) : is_nan (safe_cap ec mc) = false.
Proof.
  destruct (safe_cap_range ec mc) as [H _].
  now destruct (leb_not_nan _ _ H).
Qed.

(** X1: a denser symbol never gets a larger cap: for every level (known or
    not) the cap, before and after the 0.20 ceiling, does not increase with
    the module count. *)
Theorem cap_nonincreasing_in_modules (ec mc1 mc2 : Z) :
  mc1 <= mc2 ->
  leb (_max_safe_logo_ratio ec mc2) (_max_safe_logo_ratio ec mc1) = true /\
  leb (safe_cap ec mc2) (safe_cap ec mc1) = true.
Proof.
  intros Hle.
  unfold safe_cap, _max_safe_logo_ratio, dict_get,
    ERROR_CORRECT_L, ERROR_CORRECT_M, ERROR_CORRECT_Q, ERROR_CORRECT_H.
  destruct (1 =? ec); [|destruct (0 =? ec); [|destruct (3 =? ec); [|destruct (2 =? ec)]]];
    (destruct (Z.leb_spec 45 mc1); [|destruct (Z.leb_spec 33 mc1)]);
    (destruct (Z.leb_spec 45 mc2); [|destruct (Z.leb_spec 33 mc2)]);
    try lia; vm_compute; split; reflexivity.
Qed.

Lemma cap_nonincreasing_in_modules_witness :
  leb (_max_safe_logo_ratio ERROR_CORRECT_M 57)
      (_max_safe_logo_ratio ERROR_CORRECT_M 25) = true /\
  leb (safe_cap ERROR_CORRECT_M 57) (safe_cap ERROR_CORRECT_M 25) = true.
Proof. apply (cap_nonincreasing_in_modules ERROR_CORRECT_M 25 57). lia. Defined.

(** X2: a level that is none of the four constants is treated as level Q. *)
Theorem unknown_level_defaults_to_Q (ec mc : Z) :
  ec <> ERROR_CORRECT_L -> ec <> ERROR_CORRECT_M ->
  ec <> ERROR_CORRECT_Q -> ec <> ERROR_CORRECT_H ->
  _max_safe_logo_ratio ec mc = _max_safe_logo_ratio ERROR_CORRECT_Q mc /\
  safe_cap ec mc = safe_cap ERROR_CORRECT_Q mc.
Proof.
  unfold ERROR_CORRECT_L, ERROR_CORRECT_M, ERROR_CORRECT_Q, ERROR_CORRECT_H.
  intros HL HM HQ HH.
  assert (E : _max_safe_logo_ratio ec mc = _max_safe_logo_ratio 3 mc).
  { unfold _max_safe_logo_ratio, dict_get,
      ERROR_CORRECT_L, ERROR_CORRECT_M, ERROR_CORRECT_Q, ERROR_CORRECT_H.
    destruct (Z.eqb_spec 1 ec); [lia|]. destruct (Z.eqb_spec 0 ec); [lia|].
    destruct (Z.eqb_spec 3 ec); [lia|]. destruct (Z.eqb_spec 2 ec); [lia|].
    reflexivity. }
  split; [exact E|]. unfold safe_cap, ERROR_CORRECT_Q. now rewrite E.
Qed.

Lemma unknown_level_defaults_to_Q_witness :
  _max_safe_logo_ratio 7 40 = _max_safe_logo_ratio ERROR_CORRECT_Q 40 /\
  safe_cap 7 40 = safe_cap ERROR_CORRECT_Q 40.
Proof.
  apply (unknown_level_defaults_to_Q 7 40);
    unfold ERROR_CORRECT_L, ERROR_CORRECT_M, ERROR_CORRECT_Q, ERROR_CORRECT_H;
    lia.
Defined.

(** X3: the value of [_max_safe_logo_ratio] always lies between 0.09 and
    0.22, so its own floor of 0.08 is never the value returned. *)
Theorem raw_cap_between_0_09_and_0_22 (ec mc : Z) :
  leb (dec2 9) (_max_safe_logo_ratio ec mc) = true /\
  leb (_max_safe_logo_ratio ec mc) (dec2 22) = true /\
  _max_safe_logo_ratio ec mc <> dec2 8.
Proof.
  unfold _max_safe_logo_ratio, dict_get,
    ERROR_CORRECT_L, ERROR_CORRECT_M, ERROR_CORRECT_Q, ERROR_CORRECT_H.
  destruct (1 =? ec); [|destruct (0 =? ec); [|destruct (3 =? ec); [|destruct (2 =? ec)]]];
    (destruct (45 <=? mc); [|destruct (33 <=? mc)]);
    vm_compute; (split; [reflexivity|split; [reflexivity|discriminate]]).
Qed.

(** X4: the applied ratio is monotone in the requested one: for a fixed
    payload, level and module count, a smaller request never yields a larger
    logo. *)
Theorem applied_ratio_monotone_in_request (up : N -> list N) (data : str)
    (r1 r2 : float)
    (border_size ec mc : Z) :
  leb r1 r2 = true ->
  leb (applied_logo_ratio up data r1 border_size ec mc)
      (applied_logo_ratio up data r2 border_size ec mc) = true.
Proof.
  intros H. unfold applied_logo_ratio, clamp_ratio.
  apply py_max_monotone; [reflexivity|].
  apply py_min_monotone; [apply safe_cap_not_nan|].
  destruct (startswith (upper up (strip data)) (lit "BEGIN:VCARD")) eqn:Hv.
  - rewrite !(preclamp_vcard _ _ _ _ Hv). cbn [fst].
    now apply hard_cap_monotone.
  - destruct (startswith (upper up (strip data)) (lit "MECARD:")) eqn:Hm.
    + rewrite !(preclamp_mecard _ _ _ _ Hm). cbn [fst].
      now apply hard_cap_monotone.
    + rewrite !(preclamp_plain _ _ _ _ Hv Hm). exact H.
Qed.

Lemma applied_ratio_monotone_in_request_witness :
  leb (applied_logo_ratio no_case_table (lit "mecard:N:Doe;;") (dec2 10) 4 ERROR_CORRECT_H 21)
      (applied_logo_ratio no_case_table (lit "mecard:N:Doe;;") (dec2 25) 4 ERROR_CORRECT_H 21)
  = true.
Proof.
  apply (applied_ratio_monotone_in_request no_case_table (lit "mecard:N:Doe;;")
           (dec2 10) (dec2 25) 4 ERROR_CORRECT_H 21).
  reflexivity.
Defined.

(** X5: a request that is already between 0.08 and the cap is applied
    unchanged, for a payload that is no contact record or, for any payload,
    when the request is at most 0.16. *)
Theorem safe_request_is_honoured (up : N -> list N) (data : str) (r : float)
    (border_size ec mc : Z) :
  leb (dec2 8) r = true -> leb r (safe_cap ec mc) = true ->
  (startswith (upper up (strip data)) (lit "BEGIN:VCARD") = false /\
   startswith (upper up (strip data)) (lit "MECARD:") = false) \/
  leb r (dec2 16) = true ->
  applied_logo_ratio up data r border_size ec mc = r.
Proof.
  intros Hlo Hhi Hkind.
  assert (Hpre : fst (contact_preclamp up data r border_size) = r).
  { destruct Hkind as [[Hv Hm]|H16];
      [now rewrite (preclamp_plain _ _ _ _ Hv Hm)|].
    assert (H18 : leb r (dec2 18) = true)
      by (apply leb_trans with (dec2 16); [exact H16|reflexivity]).
    destruct (startswith (upper up (strip data)) (lit "BEGIN:VCARD")) eqn:Hv.
    - rewrite (preclamp_vcard _ _ _ _ Hv). cbn [fst].
      now rewrite (leb_ltb_false _ _ H16).
    - destruct (startswith (upper up (strip data)) (lit "MECARD:")) eqn:Hm.
      + rewrite (preclamp_mecard _ _ _ _ Hm). cbn [fst].
        now rewrite (leb_ltb_false _ _ H18).
      + now rewrite (preclamp_plain _ _ _ _ Hv Hm). }
  unfold applied_logo_ratio, clamp_ratio. rewrite Hpre.
  unfold py_min. rewrite (leb_ltb_false _ _ Hhi).
  unfold py_max. destruct (ltb (dec2 8) r) eqn:E; [reflexivity|].
  assert (Hge : leb r (dec2 8) = true).
  { apply not_ltb_leb; [reflexivity| |exact E].
    now destruct (leb_not_nan _ _ Hlo). }
  symmetry. revert Hge Hlo.
  change (dec2 8) with (S754_finite false 5764607523034235 (-56)).
  apply leb_antisym_finite.
Qed.

Lemma safe_request_is_honoured_witness :
  applied_logo_ratio no_case_table (lit "BEGIN:VCARD") (dec2 14) 4
    ERROR_CORRECT_H 21
  = dec2 14.
Proof.
  apply (safe_request_is_honoured no_case_table (lit "BEGIN:VCARD") (dec2 14) 4
           ERROR_CORRECT_H 21); try reflexivity.
  right. reflexivity.
Defined.

End SafeRatioMore.

(** ** The plate behind the logo *)

Section PlateFacts.

Import QrCreator Plate.

Lemma py_max_int_max (a b : Z) : py_max_int a b = Z.max a b.
Proof. unfold py_max_int. destruct (Z.ltb_spec a b); lia. Qed.

Lemma py_min_int_min (a b : Z) : py_min_int a b = Z.min a b.
Proof. unfold py_min_int. destruct (Z.ltb_spec b a); lia. Qed.

(** X6: the plate never leaves the image: whatever the logo size and the
    padding (negative or huge), its corners satisfy 0 <= x0, 0 <= y0,
    x1 <= qr_w and y1 <= qr_h. *)
Theorem plate_within_image (qr_w qr_h new_w new_h logo_pad_px : Z) :
  let b := logo_box qr_w qr_h new_w new_h logo_pad_px in
  0 <= bg_x0 b /\ 0 <= bg_y0 b /\ bg_x1 b <= qr_w /\ bg_y1 b <= qr_h.
Proof.
  simpl. rewrite !py_max_int_max, !py_min_int_min. lia.
Qed.

(** X7: when the resized logo fits in the image, it is centred to the pixel
    (the left and top margins are the smaller ones, by at most 1) and the
    plate covers the whole logo, with x0 <= x1 and y0 <= y1. *)
Theorem logo_centred_and_covered (qr_w qr_h new_w new_h logo_pad_px : Z) :
  0 <= new_w <= qr_w -> 0 <= new_h <= qr_h ->
  let b := logo_box qr_w qr_h new_w new_h logo_pad_px in
  0 <= cx b /\ 0 <= cy b /\
  0 <= (qr_w - (cx b + new_w)) - cx b <= 1 /\
  0 <= (qr_h - (cy b + new_h)) - cy b <= 1 /\
  bg_x0 b <= cx b /\ cx b + new_w <= bg_x1 b /\
  bg_y0 b <= cy b /\ cy b + new_h <= bg_y1 b.
Proof.
  intros Hw Hh. simpl. rewrite !py_max_int_max, !py_min_int_min.
  pose proof (Z.div_mod (qr_w - new_w) 2 ltac:(lia)) as Dx.
  pose proof (Z.mod_pos_bound (qr_w - new_w) 2 ltac:(lia)) as Mx.
  pose proof (Z.div_mod (qr_h - new_h) 2 ltac:(lia)) as Dy.
  pose proof (Z.mod_pos_bound (qr_h - new_h) 2 ltac:(lia)) as My.
  lia.
Qed.

Lemma logo_centred_and_covered_witness :
  cx (logo_box 444 444 79 53 8) = 182 /\
  cy (logo_box 444 444 79 53 8) = 195 /\
  0 <= (444 - (cx (logo_box 444 444 79 53 8) + 79))
       - cx (logo_box 444 444 79 53 8) <= 1.
Proof.
  split; [reflexivity|]. split; [reflexivity|].
  destruct (logo_centred_and_covered 444 444 79 53 8) as (_ & _ & H & _);
    [lia | lia | exact H].
Defined.

(** X8: the corner radius that [_rounded_rect] draws with is never negative,
    never above the requested radius when that one is not negative, and at
    most half of the smaller side of a box with non-negative sides; a
    requested radius within these bounds is used as it is.  The plate alpha
    is always within 0..255. *)
Theorem plate_radius_and_alpha_bounds (x0 y0 x1 y1 radius opacity : Z) :
  let r := _rounded_rect x0 y0 x1 y1 radius in
  0 <= r /\
  (0 <= radius -> r <= radius) /\
  (x0 <= x1 -> y0 <= y1 -> 2 * r <= Z.min (x1 - x0) (y1 - y0)) /\
  (0 <= radius -> 2 * radius <= Z.min (x1 - x0) (y1 - y0) -> r = radius) /\
  0 <= fill_alpha opacity <= 255.
Proof.
  unfold _rounded_rect, fill_alpha.
  rewrite !py_max_int_max, !py_min_int_min.
  set (m := Z.min (x1 - x0) (y1 - y0)).
  pose proof (Z.div_mod m 2 ltac:(lia)) as D.
  pose proof (Z.mod_pos_bound m 2 ltac:(lia)) as M.
  cbv zeta. lia.
Qed.

Lemma plate_radius_and_alpha_bounds_witness :
  _rounded_rect 174 187 269 256 12 = 12 /\
  _rounded_rect 0 0 10 7 12 = 3.
Proof.
  split.
  - destruct (plate_radius_and_alpha_bounds 174 187 269 256 12 255)
      as (_ & _ & _ & H & _).
    apply H; simpl; lia.
  - reflexivity.
Defined.

End PlateFacts.

(** ** The vCard builder and the escaping of its fields *)

Section VCardFacts.

Import PyFloat PyStr QrCreator VCard.

Lemma lstrip_app_nonspace (a : str) (x : N) :
  is_space x = false -> lstrip (a ++ [x]) = lstrip a ++ [x].
Proof.
  intros Hx. induction a as [|c a IH]; simpl.
  - now rewrite Hx.
  - destruct (is_space c); [exact IH|reflexivity].
Qed.

Lemma rstrip_cons_nonspace (x : N) (s : str) :
  is_space x = false -> rstrip (x :: s) = x :: rstrip s.
Proof.
  intros Hx. unfold rstrip. simpl.
  rewrite (lstrip_app_nonspace _ _ Hx), rev_app_distr. reflexivity.
Qed.

(** A text that begins with BEGIN:VCARD passes the test of line 185. *)
Lemma begin_vcard_detected (up : N -> list N) (t : str) :
  startswith (upper up (strip (lit "BEGIN:VCARD" ++ t))) (lit "BEGIN:VCARD")
  = true.
Proof.
  unfold strip.
  change (lstrip (lit "BEGIN:VCARD" ++ t)) with (lit "BEGIN:VCARD" ++ t).
  change (lit "BEGIN:VCARD" ++ t)
    with (66%N :: 69%N :: 71%N
          :: 73%N :: 78%N :: 58%N
          :: 86%N :: 67%N :: 65%N
          :: 82%N :: 68%N :: t).
  rewrite !rstrip_cons_nonspace by reflexivity.
  reflexivity.
Qed.

Lemma join_snoc (sep : str) (l : list str) (x z : str) :
  join sep ((x :: l) ++ [z]) = join sep (x :: l) ++ sep ++ z.
Proof.
  revert x. induction l as [|y l IH]; intros x; [reflexivity|].
  change (join sep ((x :: y :: l) ++ [z]))
    with (x ++ sep ++ join sep ((y :: l) ++ [z])).
  rewrite IH.
  change (join sep (x :: y :: l)) with (x ++ sep ++ join sep (y :: l)).
  now rewrite <- !app_assoc.
Qed.

Variables given_name family_name org title : str.
Variables phones emails : option (list str).
Variables url street city region postal country note version : str.

(** The case table of [str.upper()] outside ASCII. *)
Variable up : N -> list N.

Let card : str :=
  build_vcard given_name family_name org title phones emails url street city
    region postal country note version.

Lemma build_vcard_detected :
  startswith (upper up (strip card)) (lit "BEGIN:VCARD") = true.
Proof.
  unfold card, build_vcard.
  match goal with
  | |- context [join VCARD_EOL ([?a; ?b; ?c; ?d] ++ ?rest)] =>
      change (join VCARD_EOL ([a; b; c; d] ++ rest))
        with (a ++ VCARD_EOL ++ join VCARD_EOL (b :: c :: d :: rest))
  end.
  rewrite <- app_assoc. apply begin_vcard_detected.
Qed.

(** X9: whatever the fields, the record built by [build_vcard] opens with
    the lines BEGIN:VCARD and VERSION:<version> and closes with END:VCARD,
    each line ended by CR LF. *)
Theorem build_vcard_envelope :
  exists middle : str,
    card = lit "BEGIN:VCARD" ++ VCARD_EOL ++ (lit "VERSION:" ++ version)
           ++ VCARD_EOL ++ middle ++ lit "END:VCARD" ++ VCARD_EOL.
Proof.
  unfold card, build_vcard.
  match goal with
  | |- context [join VCARD_EOL ([?a; ?b; ?c; ?d] ++ ?o1 ++ ?o2 ++ ?o3 ++ ?o4
                                ++ ?o5 ++ ?o6 ++ ?o7 ++ [?z])] =>
      replace ([a; b; c; d] ++ o1 ++ o2 ++ o3 ++ o4 ++ o5 ++ o6 ++ o7 ++ [z])
        with ((a :: b :: c :: d :: o1 ++ o2 ++ o3 ++ o4 ++ o5 ++ o6 ++ o7)
              ++ [z])
        by (simpl; now rewrite <- !app_assoc);
      exists (join VCARD_EOL (c :: d :: o1 ++ o2 ++ o3 ++ o4 ++ o5 ++ o6 ++ o7)
              ++ VCARD_EOL);
      rewrite join_snoc;
      change (join VCARD_EOL (a :: b :: c :: ?l))
        with (a ++ VCARD_EOL ++ b ++ VCARD_EOL ++ join VCARD_EOL (c :: l))
  end.
  now rewrite <- !app_assoc.
Qed.

(** X10: a record built by [build_vcard] is always recognised as a vCard by
    [create_qr_with_logo]: the request is lowered to 0.16 before the clamp,
    the applied ratio is at most 0.16 and the border at least 4. *)
Theorem built_vcard_is_detected (requested : float) (border_size ec mc : Z) :
  contact_preclamp up card requested border_size
  = ((if ltb (dec2 16) requested then dec2 16 else requested),
     Z.max border_size 4) /\
  leb (applied_logo_ratio up card requested border_size ec mc) (dec2 16) = true /\
  4 <= encoder_border up card requested border_size.
Proof.
  unfold applied_logo_ratio, encoder_border.
  rewrite (preclamp_vcard _ _ _ _ build_vcard_detected), py_max_int_max.
  cbn [fst snd].
  split; [reflexivity|]. split; [|lia].
  apply clamp_hard_cap. reflexivity.
Qed.

End VCardFacts.

Section EscapeFacts.

Import PyStr QrCreator VCard.

Lemma subst_char_keeps_absent (c old : N) (new s : str) :
  ~ In c new -> ~ In c s -> ~ In c (flat_map (subst_char old new) s).
Proof.
  intros Hnew Hs Hin. apply in_flat_map in Hin as (x & Hx & Hc).
  unfold subst_char in Hc. destruct (N.eqb x old).
  - now apply Hnew.
  - destruct Hc as [<-|[]]. now apply Hs.
Qed.

Lemma subst_char_removes (c : N) (new s : str) :
  ~ In c new -> ~ In c (flat_map (subst_char c new) s).
Proof.
  intros Hnew Hin. apply in_flat_map in Hin as (x & Hx & Hc).
  unfold subst_char in Hc. destruct (N.eqb_spec x c) as [->|Hne].
  - now apply Hnew.
  - destruct Hc as [<-|[]]. now apply Hne.
Qed.

(** X11: an escaped field never contains a line feed, so no field value can
    start a new line of the record. *)
Theorem escaped_field_has_no_line_feed (s : option str) :
  ~ In LF (_escape_vcard s).
Proof.
  destruct s as [[|c s]|]; try (intros []).
  unfold _escape_vcard.
  rewrite (replace_single _ COMMA), (replace_single _ SEMICOLON),
    (replace_single _ LF).
  apply subst_char_keeps_absent; [vm_compute; intuition discriminate|].
  apply subst_char_keeps_absent; [vm_compute; intuition discriminate|].
  apply subst_char_removes. vm_compute; intuition discriminate.
Qed.

Lemma replace_truthy (s old new : str) :
  truthy new = true -> truthy (replace s old new) = truthy s.
Proof.
  intros Hnew. unfold replace. destruct s as [|c s]; [reflexivity|].
  simpl. destruct (startswith (c :: s) old); [|reflexivity].
  destruct new; [discriminate|reflexivity].
Qed.

(** X12: the escaping of a field is empty exactly when the field is, so
    [build_vcard] emits an optional line exactly for the non-empty fields. *)
Theorem escaped_field_empty_iff (s : str) (tag : str) :
  truthy (_escape_vcard (Some s)) = truthy s /\
  (optional_line tag (_escape_vcard (Some s)) = [] <-> s = []).
Proof.
  assert (H : truthy (_escape_vcard (Some s)) = truthy s).
  { destruct s as [|c s]; [reflexivity|].
    unfold _escape_vcard. now rewrite !replace_truthy by reflexivity. }
  split; [exact H|]. unfold optional_line. rewrite H.
  destruct s; simpl; split; intros; congruence.
Qed.

Lemma escape_char_plain (s : str) :
  ~ In BACKSLASH s -> ~ In LF s -> ~ In SEMICOLON s -> ~ In COMMA s ->
  flat_map Policy.escape_char s = s.
Proof.
  induction s as [|c s IH]; intros Hb Hl Hs Hc; [reflexivity|].
  simpl.
  rewrite IH;
    [ | intros H; apply Hb; now right | intros H; apply Hl; now right
      | intros H; apply Hs; now right | intros H; apply Hc; now right ].
  unfold Policy.escape_char.
  destruct (N.eqb_spec c BACKSLASH) as [->|_];
    [exfalso; apply Hb; now left|].
  destruct (N.eqb_spec c LF) as [->|_]; [exfalso; apply Hl; now left|].
  destruct (N.eqb_spec c SEMICOLON) as [->|_];
    [exfalso; apply Hs; now left|].
  destruct (N.eqb_spec c COMMA) as [->|_]; [exfalso; apply Hc; now left|].
  reflexivity.
Qed.

Lemma no_line_feed_no_crlf (s : str) : ~ In LF s -> Policy.no_crlf s = true.
Proof.
  induction s as [|c s IH]; intros Hl; [reflexivity|].
  simpl. rewrite IH by (intros H; apply Hl; now right).
  destruct s as [|d s']; [now rewrite andb_false_r|].
  destruct (N.eqb_spec d LF) as [->|Hd].
  - exfalso. apply Hl. right. now left.
  - now rewrite andb_false_r.
Qed.

(** X13: a field without backslash, line feed, semicolon and comma is left
    unchanged by the escaping. *)
Theorem plain_field_is_unchanged (s : str) :
  ~ In BACKSLASH s -> ~ In LF s -> ~ In SEMICOLON s -> ~ In COMMA s ->
  _escape_vcard (Some s) = s.
Proof.
  intros Hb Hl Hs Hc.
  rewrite (escape_vcard_charwise s (no_line_feed_no_crlf s Hl)).
  now apply escape_char_plain.
Qed.

Lemma plain_field_is_unchanged_witness :
  _escape_vcard (Some (lit "Mario Rossi")) = lit "Mario Rossi".
Proof.
  apply (plain_field_is_unchanged (lit "Mario Rossi"));
    vm_compute; intuition discriminate.
Defined.

Lemma escaped_field_empty_iff_witness :
  optional_line (lit "ORG:") (_escape_vcard (Some [])) = [] /\
  truthy (_escape_vcard (Some (lit ";"))) = true.
Proof.
  split.
  - destruct (escaped_field_empty_iff [] (lit "ORG:")) as [_ [_ H]].
    apply H. reflexivity.
  - destruct (escaped_field_empty_iff (lit ";") []) as [H _]. exact H.
Defined.

End EscapeFacts.

(** ** Invariants of the validation loop *)

Section LoopInvariants.

Import PyFloat PyStr QrCreator.

Lemma retry_ratio_above_floor (r : float) :
  leb (dec2 12) (retry_ratio r) = true.
Proof. unfold retry_ratio. apply py_max_lower. reflexivity. Qed.

(** X14: whatever the flags, the decoder and the starting ratio (a NaN or an
    infinity included), a run that ends attempts the starting ratio first,
    every later attempt uses a ratio of at least 0.12, and with validation
    on the reported outcome is the decoder's answer on the last attempt. *)
Theorem loop_attempts_invariant (fuel : nat) :
  forall (validate auto_tune : bool) (can_decode : nat -> bool)
         (attempt : nat) (ratio : float) (rs : list float) (ok : bool),
    main_loop fuel validate auto_tune can_decode attempt ratio = Some (rs, ok) ->
    exists later : list float,
      rs = ratio :: later /\
      Forall (fun r => leb (dec2 12) r = true) later /\
      (validate = true -> ok = can_decode (attempt + List.length later)%nat) /\
      (validate = false -> later = [] /\ ok = true).
Proof.
  induction fuel as [|fuel IH]; intros validate auto_tune can_decode attempt
    ratio rs ok Hrun; [discriminate|].
  simpl in Hrun. destruct validate.
  - destruct (can_decode attempt || negb auto_tune || leb ratio (dec2 12)).
    + injection Hrun as <- <-. exists [].
      split; [reflexivity|]. split; [constructor|].
      split; [intros _; simpl; now rewrite Nat.add_0_r | discriminate].
    + destruct (main_loop fuel true auto_tune can_decode (S attempt)
                  (retry_ratio ratio)) as [[rs' ok']|] eqn:Hrec;
        [|discriminate].
      injection Hrun as <- <-.
      destruct (IH _ _ _ _ _ _ _ Hrec) as (later & -> & Hall & Hok & _).
      exists (retry_ratio ratio :: later).
      split; [reflexivity|].
      split; [constructor; [apply retry_ratio_above_floor|exact Hall]|].
      split; [|discriminate].
      intros _. rewrite (Hok eq_refl). simpl. now rewrite Nat.add_succ_r.
  - injection Hrun as <- <-. exists [].
    split; [reflexivity|]. split; [constructor|].
    split; [discriminate|]. intros _. split; reflexivity.
Qed.

Lemma loop_attempts_invariant_witness :
  exists later : list float,
    [dec2 18; dec2 16] = dec2 18 :: later /\
    Forall (fun r => leb (dec2 12) r = true) later.
Proof.
  destruct (loop_attempts_invariant 5 true true (fun k => Nat.eqb k 1) 0
              (dec2 18) [dec2 18; dec2 16] true)
    as (later & H1 & H2 & _); [vm_compute; reflexivity|].
  exists later. split; assumption.
Defined.

Lemma last_default_irrelevant {A : Type} (l : list A) :
  forall (x d d' : A), last (x :: l) d = last (x :: l) d'.
Proof.
  induction l as [|y l IH]; intros x d d'; [reflexivity|].
  change (last (x :: y :: l) d) with (last (y :: l) d).
  change (last (x :: y :: l) d') with (last (y :: l) d').
  apply IH.
Qed.

Lemma Forall_last {A : Type} (P : A -> Prop) (l : list A) :
  forall (x d : A), Forall P (x :: l) -> P (last (x :: l) d).
Proof.
  induction l as [|y l IH]; intros x d H.
  - now inversion H.
  - change (last (x :: y :: l) d) with (last (y :: l) d).
    apply IH. now inversion H.
Qed.

Lemma main_loop_later_attempts (fuel : nat) :
  forall (validate auto_tune : bool) (can_decode : nat -> bool)
         (attempt : nat) (ratio : float) (rs : list float) (ok : bool),
    main_loop fuel validate auto_tune can_decode attempt ratio = Some (rs, ok) ->
    exists later : list float,
      rs = ratio :: later /\ Forall (fun r => leb (dec2 12) r = true) later.
Proof.
  induction fuel as [|fuel IH]; intros validate auto_tune can_decode attempt
    ratio rs ok Hrun; [discriminate|].
  simpl in Hrun. destruct validate.
  - destruct (can_decode attempt || negb auto_tune || leb ratio (dec2 12)).
    + injection Hrun as <- <-. exists []. split; [reflexivity|constructor].
    + destruct (main_loop fuel true auto_tune can_decode (S attempt)
                  (retry_ratio ratio)) as [[rs' ok']|] eqn:Hrec;
        [|discriminate].
      injection Hrun as <- <-.
      destruct (IH _ _ _ _ _ _ _ Hrec) as (later & -> & Hall).
      exists (retry_ratio ratio :: later). split; [reflexivity|].
      constructor; [apply retry_ratio_above_floor|exact Hall].
  - injection Hrun as <- <-. exists []. split; [reflexivity|constructor].
Qed.

(** X15: with validation and auto-tune on, the loop reports a failure only
    once the ratio is at or below 0.12; when it had to retry at least once,
    the last ratio attempted is exactly 0.12. *)
Theorem loop_gives_up_only_at_floor (fuel : nat) :
  forall (can_decode : nat -> bool) (attempt : nat) (ratio : float)
         (rs : list float),
    main_loop fuel true true can_decode attempt ratio = Some (rs, false) ->
    leb (last rs ratio) (dec2 12) = true /\
    ((2 <= List.length rs)%nat -> last rs ratio = dec2 12).
Proof.
  induction fuel as [|fuel IH]; intros can_decode attempt ratio rs Hrun;
    [discriminate|].
  simpl in Hrun.
  destruct (can_decode attempt) eqn:Hdec; simpl in Hrun.
  - injection Hrun as _ Hok. discriminate.
  - destruct (leb ratio (dec2 12)) eqn:Hfloor.
    + injection Hrun as <-. simpl. split; [exact Hfloor|lia].
    + destruct (main_loop fuel true true can_decode (S attempt)
                  (retry_ratio ratio)) as [[rs' ok']|] eqn:Hrec;
        [|discriminate].
      injection Hrun as <- ->.
      destruct (main_loop_later_attempts _ _ _ _ _ _ _ _ Hrec)
        as (later & -> & Hall).
      destruct (IH _ _ _ _ Hrec) as [Hlast _].
      assert (Hsame : last (ratio :: retry_ratio ratio :: later) ratio
                      = last (retry_ratio ratio :: later) (retry_ratio ratio))
        by apply (last_default_irrelevant later).
      rewrite Hsame. split; [exact Hlast|]. intros _.
      assert (Hge : leb (dec2 12) (last (retry_ratio ratio :: later)
                                     (retry_ratio ratio)) = true).
      { apply (Forall_last (fun r => leb (dec2 12) r = true)).
        constructor; [apply retry_ratio_above_floor|exact Hall]. }
      revert Hlast Hge.
      change (dec2 12) with (S754_finite false 8646911284551352 (-56)).
      apply leb_antisym_finite.
Qed.

Lemma loop_gives_up_only_at_floor_witness :
  last [dec2 18; dec2 16; dec2 14; dec2 12] (dec2 18) = dec2 12.
Proof.
  destruct (loop_gives_up_only_at_floor 4 (fun _ => false) 0 (dec2 18)
              [dec2 18; dec2 16; dec2 14; dec2 12]) as [_ H];
    [vm_compute; reflexivity|].
  apply H. simpl. lia.
Defined.

(** X16: when the decoder library is missing, [_can_decode] answers True for
    every image, so a validating run makes exactly one attempt and reports
    success, whatever the ratio and the auto-tune flag; so does a run without
    validation. *)
Theorem loop_single_attempt_without_decoder (fuel : nat)
    (validate auto_tune : bool) (zbar : nat -> option (list str))
    (can_decode : nat -> bool) (ratio : float) :
  main_loop (S fuel) validate auto_tune
    (fun k => Validation._can_decode false (zbar k)) 0 ratio
  = Some ([ratio], true) /\
  main_loop (S fuel) false auto_tune can_decode 0 ratio = Some ([ratio], true).
Proof.
  split.
  - rewrite main_loop_immediate_exit by (right; left; reflexivity).
    now destruct validate.
  - reflexivity.
Qed.

End LoopInvariants.

(** ** The interactive prompts *)

Section WizardFacts.

Import PyFloat PyStr QrCreator Wizard.

Lemma limit_between (lo hi val : float) :
  leb lo hi = true ->
  leb lo (py_max lo (py_min hi val)) = true /\
  leb (py_max lo (py_min hi val)) hi = true.
Proof.
  intros Hle. destruct (leb_not_nan _ _ Hle) as [Hlo Hhi].
  split; [now apply py_max_lower|].
  assert (Hm : leb (py_min hi val) hi = true).
  { unfold py_min. destruct (ltb val hi) eqn:E;
      [now apply ltb_leb | now apply leb_refl]. }
  unfold py_max. destruct (ltb lo (py_min hi val)); [exact Hm|exact Hle].
Qed.

Lemma ask_int_between (int_of_str : str -> option Z) (typed : str)
    (default lo hi : Z) :
  lo <= default <= hi ->
  lo <= _ask_int int_of_str typed default lo hi <= hi.
Proof.
  intros Hd. unfold _ask_int.
  destruct (negb (VCard.truthy (strip typed))); [exact Hd|].
  destruct (int_of_str (strip typed)) as [val|]; [|exact Hd].
  rewrite py_max_int_max, py_min_int_min. lia.
Qed.

(** X17: whatever is typed and however it parses (an unparsable text, a NaN
    or an infinity included), the six numeric settings of the wizard stay in
    their ranges: ratio in [0.08, 0.30], box in 4..32, border in 1..16,
    padding in 0..128, opacity in 0..255, radius in 0..128. *)
Theorem wizard_settings_in_range (float_of_str : str -> option float)
    (int_of_str : str -> option Z) (typed : str) :
  leb (dec2 8) (ask_ratio float_of_str typed) = true /\
  leb (ask_ratio float_of_str typed) (dec2 30) = true /\
  4 <= ask_box int_of_str typed <= 32 /\
  1 <= ask_border int_of_str typed <= 16 /\
  0 <= ask_pad int_of_str typed <= 128 /\
  0 <= ask_bg_opacity int_of_str typed <= 255 /\
  0 <= ask_bg_radius int_of_str typed <= 128.
Proof.
  assert (Hr : leb (dec2 8) (ask_ratio float_of_str typed) = true /\
               leb (ask_ratio float_of_str typed) (dec2 30) = true).
  { unfold ask_ratio, _ask_float.
    destruct (negb (VCard.truthy (strip typed))); [split; reflexivity|].
    destruct (float_of_str (strip typed)) as [val|]; [|split; reflexivity].
    apply limit_between. reflexivity. }
  destruct Hr as [Hlo Hhi].
  repeat (split; [first [exact Hlo | exact Hhi | apply ask_int_between; lia]|]).
  apply ask_int_between; lia.
Qed.

Lemma str_eqb_eq (a b : str) : str_eqb a b = true -> a = b.
Proof.
  revert b. induction a as [|x a IH]; intros [|y b] H; simpl in H;
    try discriminate; [reflexivity|].
  apply andb_prop in H as [Hx Hab]. apply N.eqb_eq in Hx.
  f_equal; [exact Hx | now apply IH].
Qed.

(** X18: the wizard's error-correction answer is always one of L, M, Q, H
    (anything else, the empty answer included, becomes H), so the lookup in
    [ec_map] cannot fail on it. *)
Theorem wizard_level_is_valid (up : N -> list N) (typed : str) :
  In (ask_ec up typed) [lit "L"; lit "M"; lit "Q"; lit "H"] /\
  exists ec : Z, ec_map (ask_ec up typed) = Some ec.
Proof.
  assert (Hin : In (ask_ec up typed) [lit "L"; lit "M"; lit "Q"; lit "H"]).
  { unfold ask_ec.
    set (ec := if VCard.truthy (upper up (strip typed))
               then upper up (strip typed) else lit "H").
    destruct (existsb (str_eqb ec) [lit "L"; lit "M"; lit "Q"; lit "H"])
      eqn:E; [|simpl; auto].
    apply existsb_exists in E as (x & Hx & Heq).
    apply str_eqb_eq in Heq. now subst x. }
  split; [exact Hin|].
  destruct Hin as [<-|[<-|[<-|[<-|[]]]]]; eexists; reflexivity.
Qed.

End WizardFacts.

(** ** The payload chosen by [main] *)

Section MainPayloadFacts.

Import PyFloat PyStr QrCreator MainPayload.

Variable fs : str -> fs_entry.

(** The case table of [str.upper()] outside ASCII. *)
Variable up : N -> list N.

(** X19: in vCard mode without [--from_file] the payload is always a text
    that [create_qr_with_logo] recognises as a vCard, whether it is the
    caller's ready-made card or the one built from the fields: the applied
    ratio is at most 0.16 and the border at least 4, and no file is read. *)
Theorem vcard_mode_payload_is_vcard (a : args) :
  vcard a = true -> given (from_file a) = false ->
  exists p : str,
    payload fs up a = inr (Some p) /\
    startswith (upper up (strip p)) (lit "BEGIN:VCARD") = true /\
    forall (requested : float) (border_size ec mc : Z),
      leb (applied_logo_ratio up p requested border_size ec mc) (dec2 16) = true /\
      4 <= encoder_border up p requested border_size.
Proof.
  intros Hv Hf. unfold payload. rewrite Hf, Hv.
  assert (Hcap : forall p,
                 startswith (upper up (strip p)) (lit "BEGIN:VCARD") = true ->
                 forall (requested : float) (border_size ec mc : Z),
                   leb (applied_logo_ratio up p requested border_size ec mc)
                       (dec2 16) = true /\
                   4 <= encoder_border up p requested border_size).
  { intros p Hp requested border_size ec mc.
    unfold applied_logo_ratio, encoder_border.
    rewrite (preclamp_vcard _ _ _ _ Hp), py_max_int_max. cbn [fst snd].
    split; [apply clamp_hard_cap; reflexivity | lia]. }
  destruct (is_vcard_text up (data a)) eqn:Hd.
  - destruct (data a) as [p|]; [|discriminate]. simpl in Hd.
    apply andb_prop in Hd as [_ Hp].
    exists p. split; [reflexivity|]. split; [exact Hp | now apply Hcap].
  - eexists. split; [reflexivity|].
    split; [apply build_vcard_detected | apply Hcap, build_vcard_detected].
Qed.

End MainPayloadFacts.

Lemma vcard_mode_payload_is_vcard_witness :
  exists p : PyStr.str,
    MainPayload.payload (fun _ => MainPayload.Refused) PyStr.no_case_table
      {| MainPayload.from_file := None; MainPayload.vcard := true;
         MainPayload.data :=
           Some (0xA0%N :: PyStr.lit "begin:vcard");
         MainPayload.first_name := Some (PyStr.lit "Mario");
         MainPayload.last_name := Some (PyStr.lit "Rossi");
         MainPayload.org := None; MainPayload.title := None;
         MainPayload.phone := MainPayload.OneText (PyStr.lit "+39333111222");
         MainPayload.email := MainPayload.OneText (PyStr.lit "m.rossi@acme.it");
         MainPayload.url := Some (PyStr.lit "https://acme.it");
         MainPayload.street := None; MainPayload.city := None;
         MainPayload.region := None; MainPayload.postal := None;
         MainPayload.country := None; MainPayload.note := None |}
    = inr (Some p) /\
    PyStr.startswith (PyStr.upper PyStr.no_case_table (PyStr.strip p))
      (PyStr.lit "BEGIN:VCARD")
    = true.
Proof.
  edestruct (vcard_mode_payload_is_vcard (fun _ => MainPayload.Refused)
               PyStr.no_case_table)
    as (p & Hp & Hdet & _); [| |exists p; split; [exact Hp|exact Hdet]];
    reflexivity.
Defined.

(** ** The earlier script *)

Section QrLinkFacts.

Import PyFloat PyStr QrCreator.

(** X20: the cap of [qr_link.py] is, for every module count, the value that
    [_max_safe_logo_ratio] of the later script gives at level H (before its
    0.20 ceiling). *)
Theorem link_cap_is_level_H_cap (mc : Z) :
  QrLink.safe_cap mc = _max_safe_logo_ratio ERROR_CORRECT_H mc.
Proof.
  unfold QrLink.safe_cap, _max_safe_logo_ratio.
  destruct (45 <=? mc); [|destruct (33 <=? mc)]; vm_compute; reflexivity.
Qed.

(** X21: in [qr_link.py] the ratio the logo is sized with is, for every
    request (NaN and infinities included) and every module count, between
    0.12 and the cap, hence at most 0.22; so is the ratio that [main] derives
    from whatever is typed at its prompt. *)
Theorem link_ratio_bounds (float_of_str : str -> option float) (typed : str)
    (requested : float) (mc : Z) :
  (leb (dec2 12) (QrLink.logo_ratio requested mc) = true /\
   leb (QrLink.logo_ratio requested mc) (QrLink.safe_cap mc) = true /\
   leb (QrLink.logo_ratio requested mc) (dec2 22) = true) /\
  leb (dec2 10) (QrLink.main_ratio float_of_str typed) = true /\
  leb (QrLink.main_ratio float_of_str typed) (dec2 40) = true.
Proof.
  assert (Hcap : leb (dec2 12) (QrLink.safe_cap mc) = true /\
                 leb (QrLink.safe_cap mc) (dec2 22) = true).
  { unfold QrLink.safe_cap.
    destruct (45 <=? mc); [|destruct (33 <=? mc)]; vm_compute; auto. }
  destruct Hcap as [Hlo Hhi].
  change (QrLink.logo_ratio requested mc)
    with (py_max (dec2 12) (py_min requested (QrLink.safe_cap mc))).
  assert (Hup : leb (py_max (dec2 12) (py_min requested (QrLink.safe_cap mc)))
                    (QrLink.safe_cap mc) = true)
    by (apply clamp_upper; exact Hlo).
  split.
  - split; [apply clamp_lower; reflexivity|].
    split; [exact Hup | now apply leb_trans with (QrLink.safe_cap mc)].
  - unfold QrLink.main_ratio.
    destruct (if VCard.truthy (strip typed) then float_of_str (strip typed)
              else Some (dec2 30)) as [r|]; [|split; reflexivity].
    apply limit_between. reflexivity.
Qed.

End QrLinkFacts.

(** ** Colours *)

Section ColorFacts.

Import PyStr QrCreator.

(** X22: a colour is resolved only from a string that the parser accepts,
    and the result is then the first three components of the parser's
    answer: an alpha channel never reaches the QR modules. *)
Theorem resolved_color_has_no_alpha (getrgb_str : str -> option (list Z))
    (c : color_like) (out : list Z) :
  _normalize_color getrgb_str c = inr out ->
  (List.length out <= 3)%nat /\
  exists (s : str) (rgb : list Z),
    c = ColorStr s /\ getrgb_str s = Some rgb /\ out = firstn 3 rgb.
Proof.
  unfold _normalize_color, getrgb, of_option, ret, raise.
  destruct c as [s|t]; [|discriminate].
  destruct (getrgb_str s) as [rgb|] eqn:Hp; [|discriminate].
  assert (Hout : (if (3 <? List.length rgb)%nat then firstn 3 rgb else rgb)
                 = firstn 3 rgb).
  { destruct (Nat.ltb_spec 3 (List.length rgb)); [reflexivity|].
    symmetry. apply firstn_all2. lia. }
  rewrite Hout. intros H.
  assert (E : firstn 3 rgb = out) by congruence.
  split.
  - rewrite <- E, length_firstn. lia.
  - exists s, rgb. auto.
Qed.

Lemma resolved_color_has_no_alpha_witness :
  (List.length [255; 0; 0] <= 3)%nat /\
  exists (s : str) (rgb : list Z),
    ColorStr (lit "#ff000080") = ColorStr s /\
    Some [255; 0; 0; 128] = Some rgb /\ [255; 0; 0] = firstn 3 rgb.
Proof.
  apply (resolved_color_has_no_alpha (fun _ => Some [255; 0; 0; 128])
           (ColorStr (lit "#ff000080")) [255; 0; 0]).
  reflexivity.
Defined.

End ColorFacts.
